(** * excel-mcp-server: a shallow embedding of [src/app.py]

    The Flask endpoint [run_tool] dispatches five spreadsheet tools over
    openpyxl.  This file embeds the dispatcher and the parts of Python and of
    openpyxl that decide what the tools return: Python's numbers (ints and
    IEEE binary64 floats, with [float()], [int()], ["%.16g"] and [repr]),
    openpyxl's cell model, its range lookup ([Worksheet.__getitem__],
    [iter_rows]), and the way it writes cells into and reads cells from the
    sheet XML.  The zip/XML container itself is modelled by an injective
    encoding of the cell-level content of the file. *)

From Stdlib Require Import ZArith String Ascii List Bool Lia.
From stdpp Require Import countable strings.
Import ListNotations.
Open Scope Z_scope.
Set Warnings "-register-all,-abstract-large-number".

(* ================================================================== *)
(** ** Python floats: IEEE 754 binary64 *)

(** [F64 neg m e] is [(-1)^neg * m * 2^e] in canonical form: a normal
    number has [2^52 <= m < 2^53] and [-1074 <= e <= 971], a subnormal
    number or a zero has [m < 2^52] and [e = -1074]. *)
Inductive float64 :=
| F64 (neg : bool) (m : Z) (e : Z)
| FInf (neg : bool)
| FNaN.

Definition prec : Z := 53.
Definition emin : Z := -1074.
Definition emax : Z := 971.

(** [p / (q * 2^e)] as a numerator and a denominator. *)
Definition scale2 (p q e : Z) : Z * Z :=
  if 0 <=? e then (p, q * 2 ^ e) else (p * 2 ^ (- e), q).

(** Round the non-negative rational [p / q] (with [q > 0]) to the nearest
    binary64 value, ties to even, as every correctly rounded operation of
    CPython does; [neg] is the sign of the result. *)
Definition round_binary64 (neg : bool) (p q : Z) : float64 :=
  if p =? 0 then F64 neg 0 emin else
  let e1 := Z.log2 p - Z.log2 q - prec in
  let '(n1, d1) := scale2 p q e1 in
  let e2 := if 2 ^ prec <=? n1 / d1 then e1 + 1 else e1 in
  let e := Z.max e2 emin in
  let '(n, d) := scale2 p q e in
  let m := n / d in
  let r := n mod d in
  let m1 := if (d <? 2 * r) || ((2 * r =? d) && Z.odd m) then m + 1 else m in
  let '(m2, e3) := if m1 =? 2 ^ prec then (2 ^ (prec - 1), e + 1) else (m1, e) in
  if emax <? e3 then FInf neg else F64 neg m2 e3.

(** Round [n * 2^e] ([n] an integer of any sign). *)
Definition round_scaled (n e : Z) : float64 :=
  let '(p, q) := scale2 (Z.abs n) 1 (- e) in
  round_binary64 (n <? 0) p q.

Definition f64_is_finite (x : float64) : bool :=
  match x with F64 _ _ _ => true | _ => false end.

(** The exact value of a finite float as a numerator and a denominator. *)
Definition f64_num_den (x : float64) : Z * Z :=
  match x with
  | F64 neg m e =>
      let '(p, q) := scale2 m 1 (- e) in ((if neg then - p else p), q)
  | _ => (0, 1)
  end.

(* ================================================================== *)
(** ** Python exceptions and the exception monad *)

Inductive exn :=
| KeyError (msg : string)
| TypeError (msg : string)
| ValueError (msg : string)
| AttributeError (msg : string)
| OSError (msg : string)
| IndexError (msg : string)
| OverflowError (msg : string)
| ZeroDivisionError (msg : string)
| IllegalCharacterError (msg : string)
| HTTPError (msg : string).

(** [str(e)] *)
Definition exn_str (e : exn) : string :=
  match e with
  | KeyError m | TypeError m | ValueError m | AttributeError m | OSError m
  | IndexError m | OverflowError m | ZeroDivisionError m
  | IllegalCharacterError m | HTTPError m => m
  end.

Inductive result (A : Type) :=
| Ok (a : A)
| Err (e : exn).
Arguments Ok {A} a.
Arguments Err {A} e.

Definition rbind {A B} (m : result A) (k : A -> result B) : result B :=
  match m with Ok a => k a | Err e => Err e end.

Notation "x <- m ;; k" := (rbind m (fun x => k))
  (at level 100, m at next level, right associativity).

(* ================================================================== *)
(** ** Python numbers *)

(** A Python [int] or [float].  A [bool] takes part in arithmetic as the
    int [0] or [1]. *)
Inductive pynum :=
| PInt (z : Z)
| PFloat (f : float64).

(** [float(n)] for an int [n]: correctly rounded, [OverflowError] when the
    rounded value does not fit ([PyLong_AsDouble]). *)
Definition int_to_float (n : Z) : result float64 :=
  match round_scaled n 0 with
  | FInf _ => Err (OverflowError "int too large to convert to float")
  | f => Ok f
  end.

(** [x + y] on floats. *)
Definition f64_add (x y : float64) : float64 :=
  match x, y with
  | FNaN, _ | _, FNaN => FNaN
  | FInf a, FInf b => if Bool.eqb a b then FInf a else FNaN
  | FInf a, _ => FInf a
  | _, FInf b => FInf b
  | F64 nx mx ex, F64 ny my ey =>
      let e := Z.min ex ey in
      let sx := (if nx then - mx else mx) * 2 ^ (ex - e) in
      let sy := (if ny then - my else my) * 2 ^ (ey - e) in
      let s := sx + sy in
      if s =? 0 then F64 (nx && ny) 0 emin else round_scaled s e
  end.

(** [x / y] on floats; dividing by a zero raises [ZeroDivisionError]. *)
Definition f64_div (x y : float64) : result float64 :=
  match x, y with
  | FNaN, _ | _, FNaN => Ok FNaN
  | _, F64 _ 0 _ => Err (ZeroDivisionError "float division by zero")
  | FInf _, FInf _ => Ok FNaN
  | FInf a, F64 b _ _ => Ok (FInf (xorb a b))
  | F64 a _ _, FInf b => Ok (F64 (xorb a b) 0 emin)
  | F64 a mx ex, F64 b my ey =>
      let '(p, q) := scale2 mx my (ey - ex) in
      Ok (round_binary64 (xorb a b) p q)
  end.

(** [a + b] on Python numbers. *)
Definition py_add (a b : pynum) : result pynum :=
  match a, b with
  | PInt x, PInt y => Ok (PInt (x + y))
  | PInt x, PFloat y => fx <- int_to_float x ;; Ok (PFloat (f64_add fx y))
  | PFloat x, PInt y => fy <- int_to_float y ;; Ok (PFloat (f64_add x fy))
  | PFloat x, PFloat y => Ok (PFloat (f64_add x y))
  end.

(** [a / b] (true division) on Python numbers: int by int is correctly
    rounded ([long_true_divide]); a float operand converts the other. *)
Definition py_truediv (a b : pynum) : result pynum :=
  match a, b with
  | PInt x, PInt y =>
      if y =? 0 then Err (ZeroDivisionError "division by zero") else
      match round_binary64 (xorb (x <? 0) (y <? 0)) (Z.abs x) (Z.abs y) with
      | FInf _ => Err (OverflowError "integer division result too large for a float")
      | f => Ok (PFloat f)
      end
  | PInt x, PFloat y => fx <- int_to_float x ;; f <- f64_div fx y ;; Ok (PFloat f)
  | PFloat x, PInt y => fy <- int_to_float y ;; f <- f64_div x fy ;; Ok (PFloat f)
  | PFloat x, PFloat y => f <- f64_div x y ;; Ok (PFloat f)
  end.

(* ================================================================== *)
(** ** Python strings

    A Python [str] is a [string]; a character stands for the code point
    [nat_of_ascii c] (Latin-1). *)

Definition code (c : ascii) : nat := nat_of_ascii c.

Definition CR : ascii := ascii_of_nat 13.
Definition DQ : ascii := ascii_of_nat 34.
Definition LF : ascii := ascii_of_nat 10.

Definition is_digit (c : ascii) : bool := (48 <=? code c)%nat && (code c <=? 57)%nat.

Definition digit_val (c : ascii) : Z := Z.of_nat (code c) - 48.

(** [Py_ISSPACE]: the C whitespace of the ASCII range. *)
Definition is_c_space (c : ascii) : bool :=
  ((9 <=? code c)%nat && (code c <=? 13)%nat) || (code c =? 32)%nat.

(** [_PyUnicode_TransformDecimalAndSpaceToASCII], on one character: ASCII
    is kept, Unicode white space becomes a space, anything else ['?']. *)
Definition to_ascii_char (c : ascii) : ascii :=
  if (code c <? 127)%nat then c
  else if (code c =? 133)%nat || (code c =? 160)%nat then " "%char
  else "?"%char.

Definition lower (c : ascii) : ascii :=
  if (65 <=? code c)%nat && (code c <=? 90)%nat then ascii_of_nat (code c + 32) else c.

Fixpoint strip_left (l : list ascii) : list ascii :=
  match l with
  | c :: r => if is_c_space c then strip_left r else l
  | [] => []
  end.

Definition strip (l : list ascii) : list ascii := rev (strip_left (rev (strip_left l))).

(** [_Py_string_to_number_with_underscores]: an underscore must sit
    between two digits; the underscores are then removed. *)
Fixpoint drop_underscores (prev : ascii) (l : list ascii) : option (list ascii) :=
  match l with
  | [] => if Ascii.eqb prev "_" then None else Some []
  | c :: r =>
      if Ascii.eqb c "_" then
        if is_digit prev then drop_underscores c r else None
      else if Ascii.eqb prev "_" && negb (is_digit c) then None
      else option_map (cons c) (drop_underscores c r)
  end.

Fixpoint span_digits (l : list ascii) : list ascii * list ascii :=
  match l with
  | c :: r => if is_digit c then let '(ds, rest) := span_digits r in (c :: ds, rest) else ([], l)
  | [] => ([], [])
  end.

Definition digits_value (ds : list ascii) : Z :=
  fold_left (fun acc c => 10 * acc + digit_val c) ds 0.

Definition take_sign (l : list ascii) : bool * list ascii :=
  match l with
  | "-"%char :: r => (true, r)
  | "+"%char :: r => (false, r)
  | _ => (false, l)
  end.

Definition digit_char (d : Z) : ascii := ascii_of_nat (Z.to_nat d + 48).

Fixpoint digits_rev (fuel : nat) (n : Z) : list ascii :=
  match fuel with
  | O => []
  | S f => if n <? 10 then [digit_char n] else digit_char (n mod 10) :: digits_rev f (n / 10)
  end.

(** The decimal digits of a non-negative integer, most significant first
    ([str(n)] for [n >= 0]). *)
Definition z_digits (n : Z) : list ascii := rev (digits_rev (S (Z.to_nat (Z.log2 n))) n).

Definition ndigits (n : Z) : Z := Z.of_nat (length (z_digits n)).

(** [M * 10^E], correctly rounded, with sign [neg]; values beyond the
    binary64 range are settled without computing [10^E]. *)
Definition decimal_to_float (neg : bool) (M E : Z) : float64 :=
  if M =? 0 then F64 neg 0 emin
  else if 310 <? E + ndigits M then FInf neg
  else if E + ndigits M <? -330 then F64 neg 0 emin
  else if 0 <=? E then round_binary64 neg (M * 10 ^ E) 1
  else round_binary64 neg M (10 ^ (- E)).

Definition ascii_list (s : string) : list ascii := list_ascii_of_string s.

Definition list_eqb (a b : list ascii) : bool := String.eqb (string_of_list_ascii a) (string_of_list_ascii b).

(** What [_PyOS_ascii_strtod] accepts when it must consume the whole
    (stripped, underscore-free) text: a sign, then [inf], [infinity] or
    [nan] in any case, or a decimal with an optional exponent. *)
Definition strtod_full (l : list ascii) : option float64 :=
  let '(neg, l1) := take_sign l in
  let low := map lower l1 in
  if list_eqb low (ascii_list "inf") || list_eqb low (ascii_list "infinity") then Some (FInf neg)
  else if list_eqb low (ascii_list "nan") then Some FNaN
  else
  let '(ipart, l2) := span_digits l1 in
  let '(fpart, l3) :=
    match l2 with
    | "."%char :: r => span_digits r
    | _ => ([], l2)
    end in
  if (length ipart + length fpart =? 0)%nat then None else
  let M := digits_value (ipart ++ fpart) in
  let frac := Z.of_nat (length fpart) in
  match l3 with
  | [] => Some (decimal_to_float neg M (- frac))
  | c :: r =>
      if Ascii.eqb (lower c) "e" then
        let '(eneg, r1) := take_sign r in
        let '(eds, r2) := span_digits r1 in
        match eds, r2 with
        | _ :: _, [] =>
            let ev := digits_value eds in
            Some (decimal_to_float neg M ((if eneg then - ev else ev) - frac))
        | _, _ => None
        end
      else None
  end.

(** [float(s)] for a [str] [s]: [None] is the [ValueError]
    "could not convert string to float". *)
Definition py_float_of_str (s : string) : option float64 :=
  let l := map to_ascii_char (ascii_list s) in
  match drop_underscores "000"%char l with
  | None => None
  | Some l' =>
      match strip l' with
      | [] => None
      | l'' => strtod_full l''
      end
  end.

(** [int(s)] for a [str] [s] in base 10, with CPython's limit of 4300
    digits on conversions from text. *)
Definition py_int_of_str (s : string) : option Z :=
  let l := map to_ascii_char (ascii_list s) in
  match drop_underscores "000"%char l with
  | None => None
  | Some l' =>
      let '(neg, l1) := take_sign (strip l') in
      let '(ds, rest) := span_digits l1 in
      match ds, rest with
      | _ :: _, [] =>
          if (4300 <? length ds)%nat then None
          else let v := digits_value ds in Some (if neg then - v else v)
      | _, _ => None
      end
  end.

(* ================================================================== *)
(** ** Rendering floats as text *)

(** [p/q >= 10^k] *)
Definition ge_pow10 (p q k : Z) : bool :=
  if 0 <=? k then q * 10 ^ k <=? p else q <=? p * 10 ^ (- k).

(** [floor(log10(p/q))] for [p, q > 0]. *)
Definition dec_exp (p q : Z) : Z :=
  let a := ndigits p - ndigits q in
  if ge_pow10 p q a then a else a - 1.

(** [p/q * 10^s] as a numerator and a denominator. *)
Definition scale10 (p q s : Z) : Z * Z :=
  if 0 <=? s then (p * 10 ^ s, q) else (p, q * 10 ^ (- s)).

(** [p/q] rounded to [P] significant digits, ties to even: the digits as
    an integer [D] with [10^(P-1) <= D < 10^P] and the decimal exponent [X]
    of the leading digit. *)
Definition round_sig (P p q : Z) : Z * Z :=
  let X := dec_exp p q in
  let '(n, d) := scale10 p q (P - 1 - X) in
  let D := n / d in
  let r := n mod d in
  let D1 := if (d <? 2 * r) || ((2 * r =? d) && Z.odd D) then D + 1 else D in
  if D1 =? 10 ^ P then (10 ^ (P - 1), X + 1) else (D1, X).

Fixpoint drop_zeros (l : list ascii) : list ascii :=
  match l with
  | c :: r => if Ascii.eqb c "0" then drop_zeros r else l
  | [] => []
  end.

Definition strip_trailing_zeros (l : list ascii) : list ascii := rev (drop_zeros (rev l)).

Definition sign_text (neg : bool) : list ascii := if neg then ["-"%char] else [].

(** The exponent of the ['e'] notation: a sign and at least two digits. *)
Definition exp_text (X : Z) : list ascii :=
  (if X <? 0 then "-"%char else "+"%char) ::
  (let ds := z_digits (Z.abs X) in if (length ds <? 2)%nat then "0"%char :: ds else ds).

Definition dot_part (frac : list ascii) : list ascii :=
  match frac with [] => [] | _ => "."%char :: frac end.

(** ["%.16g" % x] for a float [x] that is neither infinite nor NaN: 16
    significant digits, fixed notation when [-4 <= X < 16], trailing zeros
    (and a bare point) removed. *)
Definition fmt_g16 (x : float64) : list ascii :=
  match x with
  | F64 neg m e =>
      if m =? 0 then sign_text neg ++ ["0"%char] else
      let '(p, q) := scale2 m 1 (- e) in
      let '(D, X) := round_sig 16 p q in
      let ds := z_digits D in
      sign_text neg ++
      (if (-4 <=? X) && (X <? 16) then
         if 0 <=? X then
           firstn (Z.to_nat (X + 1)) ds ++ dot_part (strip_trailing_zeros (skipn (Z.to_nat (X + 1)) ds))
         else
           ["0"%char] ++ dot_part (strip_trailing_zeros (repeat "0"%char (Z.to_nat (- X - 1)) ++ ds))
       else
         firstn 1 ds ++ dot_part (strip_trailing_zeros (skipn 1 ds)) ++ "e"%char :: exp_text X)
  | FInf neg => sign_text neg ++ ascii_list "inf"
  | FNaN => ascii_list "nan"
  end.

Definition f64_abs_eqb (x y : float64) : bool :=
  match x, y with
  | F64 _ m1 e1, F64 _ m2 e2 => (m1 =? m2) && (e1 =? e2)
  | _, _ => false
  end.

(** The shortest digit string that reads back as the float [m * 2^e]
    ([m > 0]), the one nearest to it among the shortest: the digits [c]
    and a scale [s] with value [c * 10^-s]. *)
Definition shortest_digits (m e : Z) : Z * Z :=
  let '(p, q) := scale2 m 1 (- e) in
  let x := F64 false m e in
  let X := dec_exp p q in
  let fix search (fuel : nat) (P : Z) : Z * Z :=
    match fuel with
    | O => (0, 0)
    | S f =>
        let s := P - 1 - X in
        let '(n, d) := scale10 p q s in
        let lo := n / d in
        let r := n mod d in
        let ok_lo := f64_abs_eqb (decimal_to_float false lo (- s)) x in
        let ok_hi := f64_abs_eqb (decimal_to_float false (lo + 1) (- s)) x in
        if ok_lo && ok_hi then
          (if (2 * r <? d) || ((2 * r =? d) && Z.even lo) then (lo, s) else (lo + 1, s))
        else if ok_lo then (lo, s)
        else if ok_hi then (lo + 1, s)
        else search f (P + 1)
    end in
  search 17%nat 1.

(** [repr(x)], which is also [str(x)], for a float. *)
Definition float_repr (x : float64) : list ascii :=
  match x with
  | F64 neg m e =>
      if m =? 0 then sign_text neg ++ ascii_list "0.0" else
      let '(c, s) := shortest_digits m e in
      let ds := strip_trailing_zeros (z_digits c) in
      let decpt := ndigits c - s in
      sign_text neg ++
      (if (decpt <=? -4) || (16 <? decpt) then
         firstn 1 ds ++ dot_part (skipn 1 ds) ++ "e"%char :: exp_text (decpt - 1)
       else if decpt <=? 0 then
         ascii_list "0." ++ repeat "0"%char (Z.to_nat (- decpt)) ++ ds
       else if Z.of_nat (length ds) <=? decpt then
         ds ++ repeat "0"%char (Z.to_nat (decpt - Z.of_nat (length ds))) ++ ascii_list ".0"
       else firstn (Z.to_nat decpt) ds ++ "."%char :: skipn (Z.to_nat decpt) ds)
  | FInf neg => sign_text neg ++ ascii_list "inf"
  | FNaN => ascii_list "nan"
  end.

(** [str(n)] for an int. *)
Definition int_str (n : Z) : list ascii := sign_text (n <? 0) ++ z_digits (Z.abs n).

Definition fl (s : string) : float64 :=
  match py_float_of_str s with Some f => f | None => FNaN end.
(* ================================================================== *)
(** ** openpyxl cells, worksheets and workbooks *)

(** A cell value as openpyxl holds it.  Formulas ("=...") and error codes
    ("#N/A") are strings.  Date and time values are not modelled: the model
    covers workbooks without date number formats or ISO date cells. *)
Inductive cellvalue :=
| VNone
| VStr (s : string)
| VInt (z : Z)
| VFloat (f : float64)
| VBool (b : bool).

(** [Cell.data_type] *)
Inductive dtype := DN | DS | DF | DB | DE | DStr | DInline.

Record cell := mkCell { cvalue : cellvalue; ctype : dtype; cstyle : Z }.

(** [Worksheet]: its title, the dictionary [_cells] from (row, column) to
    cells (insertion ordered), and [_current_row]. *)
Record sheet := mkSheet { title : string; cells : list ((Z * Z) * cell); current_row : Z }.

(** [Workbook]: its sheets in order, the active sheet index and the
    [modified] time of its document properties. *)
Record workbook := mkWorkbook { sheets : list sheet; active : nat; modified : Z }.

Definition key_eqb (a b : Z * Z) : bool := (fst a =? fst b) && (snd a =? snd b).

Fixpoint lookup_cell (k : Z * Z) (l : list ((Z * Z) * cell)) : option cell :=
  match l with
  | [] => None
  | (k', c) :: r => if key_eqb k k' then Some c else lookup_cell k r
  end.

(** [_cells[k] = c]: replaces the entry in place, or appends it. *)
Fixpoint put_cell (k : Z * Z) (c : cell) (l : list ((Z * Z) * cell)) : list ((Z * Z) * cell) :=
  match l with
  | [] => [(k, c)]
  | (k', c') :: r => if key_eqb k k' then (k, c) :: r else (k', c') :: put_cell k c r
  end.

(** [max_row] and [max_column]: 1 for a sheet without cells. *)
Definition max_row (sh : sheet) : Z :=
  match sh.(cells) with
  | [] => 1
  | ((r, _), _) :: l => fold_left (fun m kc => Z.max m (fst (fst kc))) l r
  end.

Definition max_column (sh : sheet) : Z :=
  match sh.(cells) with
  | [] => 1
  | ((_, c), _) :: l => fold_left (fun m kc => Z.max m (snd (fst kc))) l c
  end.

Definition new_cell : cell := mkCell VNone DN 0.

(** [Worksheet._get_cell]: the cell at (row, column), created empty when
    missing (which also moves [_current_row]). *)
Definition get_cell_at (sh : sheet) (r c : Z) : result (sheet * cell) :=
  if (0 <? r) && (r <? 1048577) then
    match lookup_cell (r, c) sh.(cells) with
    | Some x => Ok (sh, x)
    | None => Ok (mkSheet sh.(title) (put_cell (r, c) new_cell sh.(cells))
                          (Z.max r sh.(current_row)), new_cell)
    end
  else Err (ValueError "Row numbers must be between 1 and 1048576").

(** [Worksheet.cell(row, column)] *)
Definition cell_at (sh : sheet) (r c : Z) : result (sheet * cell) :=
  if (r <? 1) || (c <? 1) then Err (ValueError "Row or column values must be at least 1")
  else get_cell_at sh r c.

(** [range(a, b + 1)] *)
Fixpoint zrange (a : Z) (n : nat) : list Z :=
  match n with O => [] | S k => a :: zrange (a + 1) k end.

Definition range_incl (a b : Z) : list Z := zrange a (Z.to_nat (b - a + 1)).

Fixpoint map_st {X} (f : sheet -> Z -> result (sheet * X)) (sh : sheet) (l : list Z)
  : result (sheet * list X) :=
  match l with
  | [] => Ok (sh, [])
  | i :: r =>
      p <- f sh i ;;
      let '(sh1, x) := p in
      q <- map_st f sh1 r ;;
      let '(sh2, xs) := q in
      Ok (sh2, x :: xs)
  end.

(** [Worksheet._cells_by_row] and [_cells_by_col] *)
Definition cells_by_row (sh : sheet) (c1 r1 c2 r2 : Z) : result (sheet * list (list cell)) :=
  map_st (fun sh r => map_st (fun sh c => cell_at sh r c) sh (range_incl c1 c2)) sh (range_incl r1 r2).

Definition cells_by_col (sh : sheet) (c1 r1 c2 r2 : Z) : result (sheet * list (list cell)) :=
  map_st (fun sh c => map_st (fun sh r => cell_at sh r c) sh (range_incl r1 r2)) sh (range_incl c1 c2).

(** Python's [x or d] on an optional int: [None] and [0] are false. *)
Definition or_default (x : option Z) (d : Z) : Z :=
  match x with Some v => if v =? 0 then d else v | None => d end.

Definition truthy (x : option Z) : bool :=
  match x with Some v => negb (v =? 0) | None => false end.

(** [Worksheet.iter_rows] and [iter_cols] (the early exit for a sheet
    that never had a cell and no bounds, then the defaults). *)
Definition iter_rows (sh : sheet) (c1 r1 c2 r2 : option Z) : result (sheet * list (list cell)) :=
  if (sh.(current_row) =? 0) && negb (truthy c1 || truthy r1 || truthy c2 || truthy r2) then Ok (sh, [])
  else cells_by_row sh (or_default c1 1) (or_default r1 1) (or_default c2 (max_column sh)) (or_default r2 (max_row sh)).

Definition iter_cols (sh : sheet) (c1 r1 c2 r2 : option Z) : result (sheet * list (list cell)) :=
  if (sh.(current_row) =? 0) && negb (truthy c1 || truthy r1 || truthy c2 || truthy r2) then Ok (sh, [])
  else cells_by_col sh (or_default c1 1) (or_default r1 1) (or_default c2 (max_column sh)) (or_default r2 (max_row sh)).

(* ------------------------------------------------------------------ *)
(** *** Addresses: [range_boundaries] and [Worksheet.__getitem__] *)

Definition is_letter (c : ascii) : bool :=
  ((65 <=? code c)%nat && (code c <=? 90)%nat) || ((97 <=? code c)%nat && (code c <=? 122)%nat).

Fixpoint span_letters (l : list ascii) : list ascii * list ascii :=
  match l with
  | c :: r => if is_letter c then let '(ls, rest) := span_letters r in (c :: ls, rest) else ([], l)
  | [] => ([], [])
  end.

Definition skip_dollar (l : list ascii) : list ascii :=
  match l with "$"%char :: r => r | _ => l end.

(** One half of [RANGE_EXPR]: [[$]?([A-Za-z]{1,3})?[$]?(\d+)?].  The
    character classes are disjoint, so the greedy match is the only one. *)
Definition match_part (l : list ascii) : option (list ascii * list ascii * list ascii) :=
  let '(ls, r1) := span_letters (skip_dollar l) in
  if (3 <? length ls)%nat then None else
  let '(ds, r2) := span_digits (skip_dollar r1) in
  Some (ls, ds, r2).

(** [column_index_from_string]: bijective base 26, case-insensitive. *)
Definition column_index (ls : list ascii) : Z :=
  fold_left (fun acc c => 26 * acc + (Z.of_nat (code (lower c)) - 96)) ls 0.

Definition opt_list {X} (l : list X) : option (list X) :=
  match l with [] => None | _ => Some l end.

Definition row_number (ds : option (list ascii)) : result (option Z) :=
  match ds with
  | None => Ok None
  | Some d =>
      match py_int_of_str (string_of_list_ascii d) with
      | Some v => Ok (Some v)
      | None => Err (ValueError "Exceeds the limit (4300 digits) for integer string conversion")
      end
  end.

(** The end of [ABSOLUTE_RE]: Python's [$] also matches before a final
    newline. *)
Definition at_end (l : list ascii) : bool :=
  match l with [] => true | [c] => Ascii.eqb c LF | _ => false end.

(** [range_boundaries(s)]: [(min_col, min_row, max_col, max_row)]. *)
Definition range_boundaries (s : string) : result (option Z * option Z * option Z * option Z) :=
  let bad := ValueError (s ++ " is not a valid coordinate or range") in
  match match_part (ascii_list s) with
  | None => Err bad
  | Some (l1, d1, rest) =>
      let second :=
        match rest with
        | [] => Some None
        | [c] => if Ascii.eqb c LF then Some None else None
        | ":"%char :: r =>
            match match_part r with
            | Some (l2, d2, r2) => if at_end r2 then Some (Some (l2, d2)) else None
            | None => None
            end
        | _ => None
        end in
      match second with
      | None => Err bad
      | Some sep =>
          let c1 := opt_list l1 in
          let r1 := opt_list d1 in
          let '(c2, r2) := match sep with Some (l2, d2) => (opt_list l2, opt_list d2) | None => (None, None) end in
          let present {X} (o : option X) := match o with Some _ => true | None => false end in
          let shape_ok :=
            match sep with
            | None => true
            | Some _ =>
                (present c1 && present c2 && present r1 && present r2)
                || (present c1 && present c2 && negb (present r1 || present r2))
                || (present r1 && present r2 && negb (present c1 || present c2))
            end in
          if negb shape_ok then Err bad else
          let mc := option_map column_index c1 in
          mr <- row_number r1 ;;
          let xc := match c2 with Some l => Some (column_index l) | None => mc end in
          xr0 <- row_number r2 ;;
          let xr := match r2 with Some _ => xr0 | None => mr end in
          Ok (mc, mr, xc, xr)
      end
  end.

(** What [ws[key]] returns: a cell, a tuple of cells (one row or one
    column), or a tuple of tuples of cells. *)
Inductive selection :=
| SelCell (rc : Z * Z) (c : cell)
| SelTuple (cs : list cell)
| SelTuples (rows : list (list cell)).

Definition has_colon (s : string) : bool := existsb (fun c => Ascii.eqb c ":") (ascii_list s).

Definition opt_eqb (a b : option Z) : bool :=
  match a, b with Some x, Some y => x =? y | None, None => true | _, _ => false end.

(** [Worksheet.__getitem__(key)] for a string key; it may create cells. *)
Definition ws_getitem (sh : sheet) (key : string) : result (sheet * selection) :=
  b <- range_boundaries key ;;
  let '(mc, mr, xc, xr) := b in
  if negb (truthy mc || truthy mr || truthy xc || truthy xr) then
    Err (IndexError (key ++ " is not a valid coordinate or range"))
  else match mr with
  | None =>
      p <- iter_cols sh mc None xc None ;;
      let '(sh1, cols) := p in
      if opt_eqb mc xc then
        match cols with
        | c0 :: _ => Ok (sh1, SelTuple c0)
        | [] => Err (IndexError "tuple index out of range")
        end
      else Ok (sh1, SelTuples cols)
  | Some r =>
      match mc with
      | None =>
          p <- iter_rows sh None mr (Some (max_column sh)) xr ;;
          let '(sh1, rows) := p in
          if opt_eqb mr xr then
            match rows with
            | r0 :: _ => Ok (sh1, SelTuple r0)
            | [] => Err (IndexError "tuple index out of range")
            end
          else Ok (sh1, SelTuples rows)
      | Some c =>
          if negb (has_colon key) then
            p <- get_cell_at sh r c ;;
            let '(sh1, x) := p in Ok (sh1, SelCell (r, c) x)
          else
            p <- iter_rows sh mc mr xc xr ;;
            let '(sh1, rows) := p in Ok (sh1, SelTuples rows)
      end
  end.

(** [Workbook.__getitem__(name)] *)
Definition wb_getitem (wb : workbook) (name : string) : result sheet :=
  match find (fun sh => String.eqb sh.(title) name) wb.(sheets) with
  | Some sh => Ok sh
  | None => Err (KeyError ("'Worksheet " ++ name ++ " does not exist.'"))
  end.

(** [Workbook.active]: [None] when the index is out of range. *)
Definition wb_active (wb : workbook) : option sheet := nth_error wb.(sheets) wb.(active).

(* ================================================================== *)
(** ** The file: sheet XML cells, read and written as openpyxl does *)

(** The [t] attribute of a [<c>] element. *)
Inductive xtype := XN | XS | XB | XE | XStr | XInline.

(** A [<c r s t>] element: its coordinate, style id, type, the text of
    [<v>] (if present), of [<f>] (if present) and of [<is><t>] (if
    present). *)
Record xcell := mkXCell {
  xr : Z * Z; xs : Z; xt : xtype;
  xv : option string; xf : option string; xis : option string }.

Record xsheet := mkXSheet { xtitle : string; xcells : list xcell }.

(** The content of an .xlsx file: its worksheets, the [activeTab] of the
    workbook view, the shared strings table and the [modified] property. *)
Record xfile := mkXFile {
  xsheets : list xsheet; xactive : nat; xsst : list string; xmodified : Z }.

(** [_cast_number] (openpyxl.worksheet._reader) *)
Definition cast_number (v : string) : result cellvalue :=
  if existsb (fun c => Ascii.eqb c "." || Ascii.eqb c "E" || Ascii.eqb c "e") (ascii_list v) then
    match py_float_of_str v with
    | Some f => Ok (VFloat f)
    | None => Err (ValueError ("could not convert string to float: '" ++ v ++ "'"))
    end
  else
    match py_int_of_str v with
    | Some z => Ok (VInt z)
    | None => Err (ValueError ("invalid literal for int() with base 10: '" ++ v ++ "'"))
    end.

Definition py_int (v : string) : result Z :=
  match py_int_of_str v with
  | Some z => Ok z
  | None => Err (ValueError ("invalid literal for int() with base 10: '" ++ v ++ "'"))
  end.

(** [lst[i]] with Python's negative indices. *)
Definition py_index {X} (l : list X) (i : Z) : result X :=
  let n := Z.of_nat (length l) in
  let j := if i <? 0 then n + i else i in
  match (if (0 <=? j) && (j <? n) then nth_error l (Z.to_nat j) else None) with
  | Some x => Ok x
  | None => Err (IndexError "list index out of range")
  end.

(** The XML parser's end-of-line handling: ["\r\n"] and a lone ["\r"]
    in character data are read as ["\n"].  (The writer, [ElementTree],
    puts a carriage return into the XML text as it is.) *)
Fixpoint xml_eol (l : list ascii) : list ascii :=
  match l with
  | [] => []
  | c :: r =>
      if Ascii.eqb c CR then
        LF :: match r with
              | d :: r' => if Ascii.eqb d LF then xml_eol r' else xml_eol r
              | [] => []
              end
      else c :: xml_eol r
  end.

Definition xml_text (s : string) : string := string_of_list_ascii (xml_eol (ascii_list s)).

(** [WorksheetReader.parse_cell] *)
Definition parse_cell (sst : list string) (x : xcell) : result ((Z * Z) * cell) :=
  let mk v t := Ok (x.(xr), mkCell v t x.(xs)) in
  let value := match x.(xt) with
               | XInline => None
               | _ => match x.(xv) with Some ""%string | None => None | Some v => Some (xml_text v) end
               end in
  match x.(xf) with
  | Some f => mk (VStr ("=" ++ xml_text f)) DF
  | None =>
      match value with
      | Some v =>
          match x.(xt) with
          | XN => n <- cast_number v ;; mk n DN
          | XS => i <- py_int v ;; s <- py_index sst i ;; mk (VStr s) DS
          | XB => i <- py_int v ;; mk (VBool (negb (i =? 0))) DB
          | XStr => mk (VStr v) DS
          | XE => mk (VStr v) DE
          | XInline => mk VNone DInline
          end
      | None =>
          match x.(xt) with
          | XInline => match x.(xis) with Some s => mk (VStr (xml_text s)) DS | None => mk VNone DInline end
          | XN => mk VNone DN
          | XS => mk VNone DS
          | XB => mk VNone DB
          | XE => mk VNone DE
          | XStr => mk VNone DStr
          end
      end
  end.

Fixpoint map_r {X Y} (f : X -> result Y) (l : list X) : result (list Y) :=
  match l with
  | [] => Ok []
  | x :: r => y <- f x ;; ys <- map_r f r ;; Ok (y :: ys)
  end.

(** [WorksheetReader.bind_cells]: later cells with the same coordinate
    replace earlier ones; [_current_row] becomes [max_row]. *)
Definition load_sheet (sst : list string) (xs : xsheet) : result sheet :=
  kcs <- map_r (parse_cell sst) xs.(xcells) ;;
  let cs := fold_left (fun acc kc => put_cell (fst kc) (snd kc) acc) kcs [] in
  let sh := mkSheet xs.(xtitle) cs 0 in
  Ok (mkSheet xs.(xtitle) cs (match cs with [] => 0 | _ => max_row sh end)).

(** [openpyxl.load_workbook] on the content of a file. *)
Definition load_xfile (x : xfile) : result workbook :=
  shs <- map_r (load_sheet x.(xsst)) x.(xsheets) ;;
  Ok (mkWorkbook shs x.(xactive) x.(xmodified)).

(** The [t] attribute written for a data type ([_set_attributes]): a
    string is written inline, a formula without [t]. *)
Definition xtype_of (t : dtype) : xtype :=
  match t with
  | DN | DF => XN
  | DS | DInline => XInline
  | DB => XB
  | DE => XE
  | DStr => XStr
  end.

(** [safe_string] (openpyxl.compat.strings): numbers as ["%.16g"], NaN and
    infinities as the empty text; an int is first converted to float. *)
Definition safe_string (v : cellvalue) : result string :=
  match v with
  | VInt z => f <- int_to_float z ;; Ok (string_of_list_ascii (fmt_g16 f))
  | VFloat f => Ok (if f64_is_finite f then string_of_list_ascii (fmt_g16 f) else ""%string)
  | VBool b => Ok (if b then "1" else "0")%string
  | VStr s => Ok s
  | VNone => Ok "none"%string
  end.

Definition is_empty_value (v : cellvalue) : bool :=
  match v with VNone => true | VStr s => String.eqb s "" | _ => false end.

(** [etree_write_cell] / [lxml_write_cell] (openpyxl.cell._writer). *)
Definition write_cell (kc : (Z * Z) * cell) : result xcell :=
  let '(k, c) := kc in
  let t := xtype_of c.(ctype) in
  if is_empty_value c.(cvalue) then Ok (mkXCell k c.(cstyle) t None None None) else
  match c.(ctype), c.(cvalue) with
  | DF, VStr s => Ok (mkXCell k c.(cstyle) t (Some ""%string) (Some (substring 1 (String.length s - 1) s)) None)
  | DF, _ => Err (TypeError "'int' object is not subscriptable")
  | (DS | DInline), VStr s => Ok (mkXCell k c.(cstyle) t None None (Some s))
  | (DS | DInline), _ => Err (TypeError "Argument must be bytes or unicode")
  | _, v => sv <- safe_string v ;; Ok (mkXCell k c.(cstyle) t (Some sv) None None)
  end.

Definition save_sheet (sh : sheet) : result xsheet :=
  xcs <- map_r write_cell sh.(cells) ;; Ok (mkXSheet sh.(title) xcs).

(** [Workbook.save]: the document's [modified] property is set to the
    time of saving, [now] (the zip entries carry that time as well). *)
Definition save_workbook (now : Z) (wb : workbook) : result xfile :=
  xss <- map_r save_sheet wb.(sheets) ;; Ok (mkXFile xss wb.(active) [] now).

(* ------------------------------------------------------------------ *)
(** *** The container: base64 text of the zip archive

    Only one property of the container is used: reading back what was
    written gives the same content.  It is modelled by an injective
    encoding of [xfile] into a text of ['0'] and ['1'] characters. *)

Global Instance xtype_eq_dec : EqDecision xtype.
Proof. solve_decision. Defined.
Global Instance xcell_eq_dec : EqDecision xcell.
Proof. solve_decision. Defined.
Global Instance xsheet_eq_dec : EqDecision xsheet.
Proof. solve_decision. Defined.
Global Instance xfile_eq_dec : EqDecision xfile.
Proof. solve_decision. Defined.

Global Instance xtype_countable : Countable xtype :=
  inj_countable'
    (fun t => match t with XN => 0%nat | XS => 1%nat | XB => 2%nat | XE => 3%nat | XStr => 4%nat | XInline => 5%nat end)
    (fun n => match n with 0%nat => XN | 1%nat => XS | 2%nat => XB | 3%nat => XE | 4%nat => XStr | _ => XInline end) ltac:(intros []; reflexivity).

Global Instance xcell_countable : Countable xcell :=
  inj_countable' (fun c => (c.(xr), c.(xs), c.(xt), c.(xv), c.(xf), c.(xis)))
                 (fun '(a, b, t, v, f, i) => mkXCell a b t v f i) ltac:(intros []; reflexivity).

Global Instance xsheet_countable : Countable xsheet :=
  inj_countable' (fun s => (s.(xtitle), s.(xcells))) (fun '(a, b) => mkXSheet a b) ltac:(intros []; reflexivity).

Global Instance xfile_countable : Countable xfile :=
  inj_countable' (fun x => (x.(xsheets), x.(xactive), x.(xsst), x.(xmodified)))
                 (fun '(a, b, c, d) => mkXFile a b c d) ltac:(intros []; reflexivity).

Fixpoint pos_bits (p : positive) : list ascii :=
  match p with
  | xH => []
  | xO q => "0"%char :: pos_bits q
  | xI q => "1"%char :: pos_bits q
  end.

Fixpoint bits_pos (l : list ascii) : option positive :=
  match l with
  | [] => Some xH
  | c :: r =>
      match bits_pos r with
      | Some q => if Ascii.eqb c "0" then Some (xO q) else if Ascii.eqb c "1" then Some (xI q) else None
      | None => None
      end
  end.

Definition encode_xlsx (x : xfile) : string := string_of_list_ascii (pos_bits (encode x)).

Definition decode_xlsx (s : string) : option xfile :=
  match bits_pos (ascii_list s) with Some p => decode p | None => None end.


(* ------------------------------------------------------------------ *)
(** *** Assigning a value to a cell: [Cell._bind_value] *)

(** [ILLEGAL_CHARACTERS_RE]: [[\000-\010]|[\013-\014]|[\016-\037]]. *)
Definition illegal_char (c : ascii) : bool :=
  let n := code c in
  (n <=? 8)%nat || (n =? 11)%nat || (n =? 12)%nat || ((14 <=? n)%nat && (n <=? 31)%nat).

(** [Cell.check_string]: truncated to 32767 characters, then refused if
    it holds an illegal control character. *)
Definition check_string (s : string) : result string :=
  let t := substring 0 32767 s in
  if existsb illegal_char (ascii_list t)
  then Err (IllegalCharacterError (t ++ " cannot be used in worksheets."))
  else Ok t.

Definition ERROR_CODES : list string :=
  ["#NULL!"; "#DIV/0!"; "#VALUE!"; "#REF!"; "#NAME?"; "#NUM!"; "#N/A"]%string.

Definition starts_with_eq (s : string) : bool :=
  match s with String c _ => Ascii.eqb c "=" | EmptyString => false end.

(** The two kinds of value [set_cell] assigns: a float or a str. *)
Inductive newvalue := NFloat (f : float64) | NStr (s : string).

Definition bind_value (v : newvalue) (c : cell) : result cell :=
  match v with
  | NFloat f => Ok (mkCell (VFloat f) DN c.(cstyle))
  | NStr s =>
      t <- check_string s ;;
      let dt := if (1 <? String.length t)%nat && starts_with_eq t then DF
                else if existsb (String.eqb t) ERROR_CODES then DE
                else DS in
      Ok (mkCell (VStr t) dt c.(cstyle))
  end.

(** [ws[key] = value], that is [ws[key].value = value]. *)
Definition ws_setitem (sh : sheet) (key : string) (v : newvalue) : result sheet :=
  p <- ws_getitem sh key ;;
  let '(sh1, sel) := p in
  match sel with
  | SelCell rc c =>
      c' <- bind_value v c ;;
      Ok (mkSheet sh1.(title) (put_cell rc c' sh1.(cells)) sh1.(current_row))
  | _ => Err (AttributeError "'tuple' object has no attribute 'value'")
  end.

(** The workbook after [wb[name]] has been changed into [sh']: the sheet
    [wb[name]] returns is the first one with that title. *)
Fixpoint replace_sheet (name : string) (sh' : sheet) (l : list sheet) : list sheet :=
  match l with
  | [] => []
  | s :: r => if String.eqb s.(title) name then sh' :: r else s :: replace_sheet name sh' r
  end.

Definition wb_put_sheet (wb : workbook) (name : string) (sh' : sheet) : workbook :=
  mkWorkbook (replace_sheet name sh' wb.(sheets)) wb.(active) wb.(modified).

(* ================================================================== *)
(** ** JSON values as Flask hands them to the code *)

(** [request.json]: objects are lists of members as they appear in the
    text; the Python dict made of them keeps, for a repeated key, the
    position of its first occurrence and the value of its last one. *)
Inductive json :=
| JNull
| JBool (b : bool)
| JInt (z : Z)
| JFloat (f : float64)
| JStr (s : string)
| JArr (l : list json)
| JObj (kvs : list (string * json)).

Fixpoint assoc_put {X} (k : string) (v : X) (l : list (string * X)) : list (string * X) :=
  match l with
  | [] => [(k, v)]
  | (k', v') :: r => if String.eqb k k' then (k, v) :: r else (k', v') :: assoc_put k v r
  end.

Fixpoint assoc_get {X} (k : string) (l : list (string * X)) : option X :=
  match l with
  | [] => None
  | (k', v) :: r => if String.eqb k k' then Some v else assoc_get k r
  end.

Definition dict_of {X} (kvs : list (string * X)) : list (string * X) :=
  fold_left (fun acc kv => assoc_put (fst kv) (snd kv) acc) kvs [].

Definition obj_get (kvs : list (string * json)) (k : string) : option json :=
  assoc_get k (dict_of kvs).

Definition type_name (j : json) : string :=
  match j with
  | JNull => "NoneType" | JBool _ => "bool" | JInt _ => "int" | JFloat _ => "float"
  | JStr _ => "str" | JArr _ => "list" | JObj _ => "dict"
  end.

Definition hex_digit (n : nat) : ascii :=
  if (n <? 10)%nat then ascii_of_nat (n + 48) else ascii_of_nat (n + 87).

(** [str.isprintable] on a Latin-1 code point. *)
Definition printable (c : ascii) : bool :=
  let n := code c in
  ((32 <=? n)%nat && (n <? 127)%nat) || ((161 <=? n)%nat && negb (n =? 173)%nat).

(** [repr(s)] for a str. *)
Definition repr_str (s : string) : string :=
  let l := ascii_list s in
  let q := if existsb (Ascii.eqb "'") l && negb (existsb (Ascii.eqb DQ) l) then DQ else "'"%char in
  let esc (c : ascii) : list ascii :=
    if Ascii.eqb c q || Ascii.eqb c "\" then ["\"%char; c]
    else if Ascii.eqb c (ascii_of_nat 9) then ["\"%char; "t"%char]
    else if Ascii.eqb c (ascii_of_nat 10) then ["\"%char; "n"%char]
    else if Ascii.eqb c (ascii_of_nat 13) then ["\"%char; "r"%char]
    else if printable c then [c]
    else ["\"%char; "x"%char; hex_digit (code c / 16); hex_digit (code c mod 16)] in
  string_of_list_ascii (q :: flat_map esc l ++ [q]).

Definition join (sep : string) (l : list string) : string :=
  match l with
  | [] => ""
  | x :: r => fold_left (fun acc y => acc ++ sep ++ y) r x
  end%string.

(** [repr] of a JSON value as a Python object. *)
Fixpoint py_repr (j : json) : string :=
  match j with
  | JNull => "None"
  | JBool b => if b then "True" else "False"
  | JInt z => string_of_list_ascii (int_str z)
  | JFloat f => string_of_list_ascii (float_repr f)
  | JStr s => repr_str s
  | JArr l => "[" ++ join ", " (map py_repr l) ++ "]"
  | JObj kvs =>
      let items := dict_of (map (fun kv => (fst kv, py_repr (snd kv))) kvs) in
      "{" ++ join ", " (map (fun kv => repr_str (fst kv) ++ ": " ++ snd kv) items) ++ "}"
  end%string.

(** [str(j)] *)
Definition py_str (j : json) : string :=
  match j with JStr s => s | _ => py_repr j end.

(* ================================================================== *)
(** ** The CSV text of [to_csv] *)

(** [str(v)] as [csv.writer] renders a cell value; [None] is empty. *)
Definition csv_field (v : cellvalue) : list ascii :=
  match v with
  | VNone => []
  | VStr s => ascii_list s
  | VInt z => int_str z
  | VFloat f => float_repr f
  | VBool b => ascii_list (if b then "True" else "False")
  end.

(** [QUOTE_MINIMAL]: a field holding the delimiter, the quote character or
    a character of the line terminator is quoted, its quotes doubled. *)
Definition needs_quote (l : list ascii) : bool :=
  existsb (fun c => Ascii.eqb c "," || Ascii.eqb c DQ || Ascii.eqb c CR || Ascii.eqb c LF) l.

Definition quote_field (l : list ascii) : list ascii :=
  if needs_quote l
  then DQ :: flat_map (fun c => if Ascii.eqb c DQ then [DQ; DQ] else [c]) l ++ [DQ]
  else l.

Fixpoint join_fields (fs : list (list ascii)) : list ascii :=
  match fs with
  | [] => []
  | [f] => f
  | f :: r => f ++ ","%char :: join_fields r
  end.

(** [csv_writer.writerow(row)]: a record made of one empty field is
    written as [""]; every record ends in ["\r\n"]. *)
Definition csv_row (row : list cellvalue) : list ascii :=
  let fs := map (fun v => quote_field (csv_field v)) row in
  (if list_eqb (join_fields fs) [] && negb (Nat.eqb (length row) 0)
   then [DQ; DQ] else join_fields fs) ++ [CR; LF].

Definition csv_text (rows : list (list cellvalue)) : list ascii := flat_map csv_row rows.

(** [s.encode('utf-8')] for a text of Latin-1 code points. *)
Definition utf8 (l : list ascii) : list Z :=
  flat_map (fun c => let n := Z.of_nat (code c) in
                     if n <? 128 then [n] else [192 + n / 64; 128 + n mod 64]) l.

Definition b64_alphabet : list ascii :=
  ascii_list "ABCDEFGHIJKLMNOPQRSTUVWXYZabcdefghijklmnopqrstuvwxyz0123456789+/".

Definition b64_char (n : Z) : ascii := nth (Z.to_nat n) b64_alphabet "="%char.

(** [base64.b64encode] *)
Fixpoint b64encode (l : list Z) : list ascii :=
  match l with
  | a :: b :: c :: r =>
      let n := a * 65536 + b * 256 + c in
      [b64_char (n / 262144); b64_char (n / 4096 mod 64); b64_char (n / 64 mod 64); b64_char (n mod 64)]
      ++ b64encode r
  | [a; b] =>
      let n := a * 65536 + b * 256 in
      [b64_char (n / 262144); b64_char (n / 4096 mod 64); b64_char (n / 64 mod 64); "="%char]
  | [a] =>
      let n := a * 65536 in
      [b64_char (n / 262144); b64_char (n / 4096 mod 64); "="%char; "="%char]
  | [] => []
  end.

Definition csv_url (rows : list (list cellvalue)) : string :=
  ("data:text/csv;base64," ++ string_of_list_ascii (b64encode (utf8 (csv_text rows))))%string.

Definition xlsx_url (x : xfile) : string :=
  ("data:application/vnd.openxmlformats-officedocument.spreadsheetml.sheet;base64," ++ encode_xlsx x)%string.

(* ================================================================== *)
(** ** The endpoint [POST /mcp/run] *)

(** What the handler does observably before it answers: reading a tool
    parameter ([params[k]]) and decoding a file
    ([load_workbook_from_b64]). *)
Inductive event := EvParam (k : string) | EvDecode.

(** The handler's computation: the events it went through, and a value or
    the exception it raised. *)
Definition M (A : Type) : Type := (list event * result A)%type.

Definition mret {A} (a : A) : M A := ([], Ok a).
Definition lift {A} (r : result A) : M A := ([], r).
Definition emit (ev : event) : M unit := ([ev], Ok tt).

Definition mbind {A B} (m : M A) (k : A -> M B) : M B :=
  match m with
  | (t1, Ok a) => let '(t2, r) := k a in (t1 ++ t2, r)
  | (t1, Err e) => (t1, Err e)
  end.

Notation "x <-- m ;; k" := (mbind m (fun x => k))
  (at level 100, m at next level, right associativity).

(** [params[k]] *)
Definition py_getitem (params : json) (k : string) : result json :=
  match params with
  | JObj kvs => match obj_get kvs k with Some v => Ok v | None => Err (KeyError (repr_str k)) end
  | JStr _ => Err (TypeError "string indices must be integers, not 'str'")
  | JArr _ => Err (TypeError "list indices must be integers or slices, not str")
  | j => Err (TypeError ("'" ++ type_name j ++ "' object is not subscriptable"))
  end.

Definition param (params : json) (k : string) : M json :=
  _ <-- emit (EvParam k) ;; lift (py_getitem params k).

(** [s.split(sep, 1)] when it gives two parts. *)
Fixpoint split_first (sep : ascii) (l : list ascii) : option (list ascii * list ascii) :=
  match l with
  | [] => None
  | c :: r =>
      if Ascii.eqb c sep then Some ([], r)
      else match split_first sep r with Some (a, b) => Some (c :: a, b) | None => None end
  end.

(** [load_workbook_from_b64].  The text after the first comma is the
    base64 of the zip archive; a text that is not the encoding of a file
    fails with a 500 error (raised by [b64decode] or by the zip reader, the
    model does not tell the two messages apart). *)
Definition load_workbook_from_b64 (x : json) : M workbook :=
  _ <-- emit EvDecode ;;
  lift
    match x with
    | JStr s =>
        match split_first ","%char (ascii_list s) with
        | None => Err (ValueError "Invalid base64 file format: not enough values to unpack (expected 2, got 1)")
        | Some (_, encoded) =>
            match decode_xlsx (string_of_list_ascii encoded) with
            | None => Err (OSError "Failed to parse Excel file: File is not a zip file")
            | Some xf =>
                match load_xfile xf with
                | Ok wb => Ok wb
                | Err ((ValueError m | TypeError m)) => Err (ValueError ("Invalid base64 file format: " ++ m))
                | Err e => Err (OSError ("Failed to parse Excel file: " ++ exn_str e))
                end
            end
        end
    | j => Err (OSError ("Failed to parse Excel file: '" ++ type_name j ++ "' object has no attribute 'split'"))
    end.

Definition INVALID_RANGE : string := "Invalid range format. Expected 'SheetName!A1:B10'.".

(** [parse_range_string]: [in] on a str, list or dict, then [split]. *)
Definition parse_range_string (x : json) : result (string * string) :=
  let has_bang :=
    match x with
    | JStr s => Ok (existsb (Ascii.eqb "!") (ascii_list s))
    | JArr l => Ok (existsb (fun j => match j with JStr s => String.eqb s "!" | _ => false end) l)
    | JObj kvs => Ok (match obj_get kvs "!" with Some _ => true | None => false end)
    | j => Err (TypeError ("argument of type '" ++ type_name j ++ "' is not iterable"))
    end in
  b <- has_bang ;;
  if negb b then Err (ValueError INVALID_RANGE) else
  match x with
  | JStr s =>
      match split_first "!"%char (ascii_list s) with
      | Some (a, r) => Ok (string_of_list_ascii a, string_of_list_ascii r)
      | None => Err (ValueError INVALID_RANGE)
      end
  | j => Err (AttributeError ("'" ++ type_name j ++ "' object has no attribute 'split'"))
  end.

(** [isinstance(v, (int, float))]: a bool is an int. *)
Definition as_number (v : cellvalue) : option pynum :=
  match v with
  | VInt z => Some (PInt z)
  | VFloat f => Some (PFloat f)
  | VBool b => Some (PInt (Z.b2z b))
  | _ => None
  end.

(** [for row in ws[rng]: for cell in row: ...] needs a tuple of tuples:
    iterating a [Cell] raises [TypeError]. *)
Definition sel_rows (s : selection) : result (list (list cell)) :=
  match s with
  | SelTuples rows => Ok rows
  | SelTuple [] => Ok []
  | _ => Err (TypeError "'Cell' object is not iterable")
  end.

(** The loop of [sum_range] and [avg_range]: the total (from the int [0])
    and the number of numeric cells. *)
Definition add_cell (acc : result (pynum * Z)) (c : cell) : result (pynum * Z) :=
  p <- acc ;;
  let '(total, count) := p in
  match as_number c.(cvalue) with
  | Some n => t <- py_add total n ;; Ok (t, count + 1)
  | None => Ok (total, count)
  end.

Definition total_count (rows : list (list cell)) : result (pynum * Z) :=
  fold_left (fun acc row => fold_left add_cell row acc) rows (Ok (PInt 0, 0)).

(** [total / count if count > 0 else 0] *)
Definition average (tc : pynum * Z) : result pynum :=
  let '(total, count) := tc in
  if 0 <? count then py_truediv total (PInt count) else Ok (PInt 0).

Definition json_of_num (n : pynum) : json :=
  match n with PInt z => JInt z | PFloat f => JFloat f end.

Definition json_of_value (v : cellvalue) : json :=
  match v with
  | VNone => JNull
  | VStr s => JStr s
  | VInt z => JInt z
  | VFloat f => JFloat f
  | VBool b => JBool b
  end.

(** [ws[addr].value] *)
Definition sel_value (s : selection) : result cellvalue :=
  match s with
  | SelCell _ c => Ok c.(cvalue)
  | _ => Err (AttributeError "'tuple' object has no attribute 'value'")
  end.

(** [float(new_value)], keeping a str that does not parse. *)
Definition coerce_value (j : json) : result newvalue :=
  match j with
  | JStr s => Ok (match py_float_of_str s with Some f => NFloat f | None => NStr s end)
  | JInt z => f <- int_to_float z ;; Ok (NFloat f)
  | JFloat f => Ok (NFloat f)
  | JBool b => Ok (NFloat (round_scaled (Z.b2z b) 0))
  | j => Err (TypeError ("float() argument must be a string or a real number, not '" ++ type_name j ++ "'"))
  end.

Record response := mkResponse { status : Z; body : json }.

Definition result_response (r : list (string * json)) : response :=
  mkResponse 200 (JObj [("result", JObj r)]).

Definition error_response (code : Z) (msg : string) : response :=
  mkResponse code (JObj [("error", JStr msg)]).

Definition sheet_of_active (wb : workbook) : result sheet :=
  match wb_active wb with
  | Some sh => Ok sh
  | None => Err (AttributeError "'NoneType' object has no attribute 'iter_rows'")
  end.

(** The five branches of [run_tool], each from [params]. *)
Definition tool_sum_range (params : json) : M response :=
  f <-- param params "file" ;;
  wb <-- load_workbook_from_b64 f ;;
  rg <-- param params "range" ;;
  p <-- lift (parse_range_string rg) ;;
  sh <-- lift (wb_getitem wb (fst p)) ;;
  q <-- lift (ws_getitem sh (snd p)) ;;
  rows <-- lift (sel_rows (snd q)) ;;
  tc <-- lift (total_count rows) ;;
  mret (result_response [("value", json_of_num (fst tc))]).

Definition tool_avg_range (params : json) : M response :=
  f <-- param params "file" ;;
  wb <-- load_workbook_from_b64 f ;;
  rg <-- param params "range" ;;
  p <-- lift (parse_range_string rg) ;;
  sh <-- lift (wb_getitem wb (fst p)) ;;
  q <-- lift (ws_getitem sh (snd p)) ;;
  rows <-- lift (sel_rows (snd q)) ;;
  tc <-- lift (total_count rows) ;;
  avg <-- lift (average tc) ;;
  mret (result_response [("value", json_of_num avg)]).

Definition tool_get_cell (params : json) : M response :=
  f <-- param params "file" ;;
  wb <-- load_workbook_from_b64 f ;;
  c <-- param params "cell" ;;
  p <-- lift (parse_range_string c) ;;
  sh <-- lift (wb_getitem wb (fst p)) ;;
  q <-- lift (ws_getitem sh (snd p)) ;;
  v <-- lift (sel_value (snd q)) ;;
  mret (result_response [("value", json_of_value v)]).

(** [set_cell] saves at time [now]. *)
Definition tool_set_cell (now : Z) (params : json) : M response :=
  f <-- param params "file" ;;
  wb <-- load_workbook_from_b64 f ;;
  c <-- param params "cell" ;;
  p <-- lift (parse_range_string c) ;;
  nv <-- param params "value" ;;
  sh <-- lift (wb_getitem wb (fst p)) ;;
  v <-- lift (coerce_value nv) ;;
  sh' <-- lift (ws_setitem sh (snd p) v) ;;
  x <-- lift (save_workbook now (wb_put_sheet wb (fst p) sh')) ;;
  mret (result_response [("file", JStr (xlsx_url x))]).

Definition tool_to_csv (params : json) : M response :=
  f <-- param params "file" ;;
  wb <-- load_workbook_from_b64 f ;;
  sh <-- lift (sheet_of_active wb) ;;
  q <-- lift (iter_rows sh None None None None) ;;
  mret (result_response [("file", JStr (csv_url (map (map cvalue) (snd q))))]).

(** [tool_id == name] *)
Definition is_tool (j : json) (name : string) : bool :=
  match j with JStr s => String.eqb s name | _ => false end.

Definition dispatch (now : Z) (data : json) : M response :=
  match data with
  | JObj kvs =>
      let tool_id := match obj_get kvs "tool_id" with Some j => j | None => JNull end in
      let params := match obj_get kvs "parameters" with Some j => j | None => JObj [] end in
      if is_tool tool_id "sum_range" then tool_sum_range params
      else if is_tool tool_id "avg_range" then tool_avg_range params
      else if is_tool tool_id "get_cell" then tool_get_cell params
      else if is_tool tool_id "set_cell" then tool_set_cell now params
      else if is_tool tool_id "to_csv" then tool_to_csv params
      else mret (error_response 404 ("Tool with id '" ++ py_str tool_id ++ "' not found."))
  | j => lift (Err (AttributeError ("'" ++ type_name j ++ "' object has no attribute 'get'")))
  end.

(** The body of the request: JSON, or a text Flask refuses ([request.json]
    then raises an HTTP exception, whose [str] is given). *)
Inductive request := ReqJson (j : json) | ReqNotJson (e : string).

(** The two [except] clauses of [run_tool]. *)
Definition to_response (r : result response) : response :=
  match r with
  | Ok resp => resp
  | Err (KeyError m | TypeError m) => error_response 400 ("Missing or invalid parameter: " ++ m)
  | Err e => error_response 500 (exn_str e)
  end.

(** [run_tool], called at time [now]: the response and the events. *)
Definition run_tool (now : Z) (req : request) : response * list event :=
  let '(t, r) := match req with
                 | ReqJson j => dispatch now j
                 | ReqNotJson e => lift (Err (HTTPError e))
                 end in
  (to_response r, t).

(* ================================================================== *)
(** ** Reference definitions used to state the properties *)





(** The response of a computation that ends in a value or raises. *)
Definition answer (r : result json) : response :=
  match r with
  | Ok v => result_response [("value", v)]
  | Err e => to_response (Err e)
  end.







Definition is_registered (j : json) : bool :=
  is_tool j "sum_range" || is_tool j "avg_range" || is_tool j "get_cell"
  || is_tool j "set_cell" || is_tool j "to_csv".

Definition tool_of (kvs : list (string * json)) : json :=
  match obj_get kvs "tool_id" with Some j => j | None => JNull end.

Definition params_of (kvs : list (string * json)) : json :=
  match obj_get kvs "parameters" with Some j => j | None => JObj [] end.


(** The shape of every answer of [run_tool]: a [{result: ...}] body with
    status 200, or an [{error: str}] body with status 400, 404 or 500. *)
Definition one_of_result_or_error (r : response) : Prop :=
  (r.(status) = 200 /\ exists v, r.(body) = JObj [("result", v)]) \/
  ((r.(status) = 400 \/ r.(status) = 404 \/ r.(status) = 500) /\
   exists m, r.(body) = JObj [("error", JStr m)]).









(** Every value a computation may end with satisfies [P]. *)
Definition ok_all {A} (P : A -> Prop) (m : M A) : Prop :=
  forall a, snd m = Ok a -> P a.

(** The answers [dispatch] returns without raising. *)
Definition shaped (r : response) : Prop :=
  (exists l, r = result_response l) \/ (exists m, r = error_response 404 m).


(** ** A small workbook for the examples

    [Sheet1] holds [A1 = 2], [A2 = 4], [A3 = "x"] (an inline string),
    [A4 = True] and [B1 = 10 ** 309] (an int too large for a float). *)
Definition ex_xcell (r c : Z) (t : xtype) (v is : option string) : xcell :=
  mkXCell (r, c) 0 t v None is.

Definition ex_big_text : string :=
  ("1" ++ string_of_list_ascii (repeat "0"%char 309))%string.

Definition ex_column_a : list xcell :=
  [ex_xcell 1 1 XN (Some "2") None; ex_xcell 2 1 XN (Some "4") None;
   ex_xcell 3 1 XInline None (Some "x"); ex_xcell 4 1 XB (Some "1") None].



(** The same workbook without [B1] (a file holding [B1] cannot be saved:
    [safe_string] raises on an int too large for a float). *)
Definition ex_small_xfile : xfile := mkXFile [mkXSheet "Sheet1" ex_column_a] 0 [] 5.

Definition ex_small_url : string := xlsx_url ex_small_xfile.

Definition ex_kvs (tool : string) (ps : list (string * json)) : list (string * json) :=
  [("tool_id", JStr tool); ("parameters", JObj ps)].

Definition ex_request (tool : string) (ps : list (string * json)) : request :=
  ReqJson (JObj (ex_kvs tool ps)).

(** The value of a computation that succeeds, [d] otherwise. *)
Definition ok_or {A} (d : A) (r : result A) : A := match r with Ok a => a | Err _ => d end.



(** The [file] of a [{"result": {"file": url}}] answer. *)
Definition response_file (r : response) : string :=
  match r.(body) with JObj [(_, JObj [(_, JStr u)])] => u | _ => EmptyString end.





(** What [get_cell] reads back from a cell that [set_cell] has written
    with the text [s]: the float [float(s)] as openpyxl saves it
    (["%.16g"], read back as an int when that text has no point and no
    exponent; nothing for NaN and infinities), or the text as checked by
    [check_string], with the XML reader's line ends, nothing for [""]. *)
Definition read_back (s : string) : result json :=
  match py_float_of_str s with
  | Some f =>
      if f64_is_finite f then (v <- cast_number (string_of_list_ascii (fmt_g16 f)) ;; Ok (json_of_value v))
      else Ok JNull
  | None => t <- check_string s ;; Ok (if String.eqb t "" then JNull else JStr (xml_text t))
  end.

(** Does [load_workbook_from_b64] accept the file? *)
Definition loads (f : json) : bool :=
  match snd (load_workbook_from_b64 f) with Ok _ => true | Err _ => false end.

(** The [get_cell] request on a file and a reference. *)
Definition get_cell_request (file ref : string) : request :=
  ReqJson (JObj [("tool_id", JStr "get_cell");
                 ("parameters", JObj [("file", JStr file); ("cell", JStr ref)])]).

(** The header of the data URL [set_cell] returns, before its comma. *)
Definition url_prefix : string :=
  "data:application/vnd.openxmlformats-officedocument.spreadsheetml.sheet;base64".

Definition not_cr (c : ascii) : Prop := Ascii.eqb c CR = false.

(** [set_cell] on [Sheet1!B2] of [ex_small_url] with the value [v]. *)
Definition ex_set_kvs (v : string) : list (string * json) :=
  ex_kvs "set_cell" [("file", JStr ex_small_url); ("cell", JStr "Sheet1!B2"); ("value", JStr v)].

(** [get_cell] on [Sheet1!B2] of the file that [set_cell] returned. *)
Definition ex_get_after_set (v : string) : response :=
  fst (run_tool 0 (get_cell_request (response_file (fst (run_tool 0 (ReqJson (JObj (ex_set_kvs v)))))) "Sheet1!B2")).


(** [Sheet1] holding [B1 = 10 ** 309] only, and an empty [Sheet2]. *)
Definition ex_big_xfile : xfile :=
  mkXFile [mkXSheet "Sheet1" [ex_xcell 1 2 XN (Some ex_big_text) None]; mkXSheet "Sheet2" []] 0 [] 5.

Definition ex_big_url : string := xlsx_url ex_big_xfile.

(** The workbook a data URL loads to (an empty one if it does not load). *)
Definition ex_load (u : string) : workbook :=
  ok_or (mkWorkbook [] 0 0) (snd (load_workbook_from_b64 (JStr u))).

(** The workbook [ex_small_url] loads to, and its [Sheet1], evaluated once. *)
Definition ex_small_workbook : workbook := Eval vm_compute in ex_load ex_small_url.

Definition ex_small_sheet : sheet :=
  Eval vm_compute in ok_or (mkSheet "" [] 0) (wb_getitem ex_small_workbook "Sheet1").

(** The workbook [ex_big_url] loads to, evaluated once. *)
Definition ex_big_workbook : workbook := Eval vm_compute in ex_load ex_big_url.

(** * Properties *)

(** ** The container *)

Lemma bits_pos_pos_bits p : bits_pos (pos_bits p) = Some p.
Proof. induction p; simpl; try rewrite IHp; reflexivity. Qed.

Lemma decode_encode_xlsx x : decode_xlsx (encode_xlsx x) = Some x.
Proof.
  unfold decode_xlsx, encode_xlsx, ascii_list.
  rewrite list_ascii_of_string_of_list_ascii, bits_pos_pos_bits.
  apply decode_encode.
Qed.

(** ** The handler's computation *)

Lemma ok_all_bind {A B} (P : B -> Prop) (m : M A) (k : A -> M B) :
  (forall a, ok_all P (k a)) -> ok_all P (mbind m k).
Proof.
  intros H b. destruct m as [t [a|e]]; simpl; [|discriminate].
  specialize (H a b). destruct (k a) as [t2 r]. exact H.
Qed.

Lemma ok_all_ret {A} (P : A -> Prop) (a : A) : P a -> ok_all P (mret a).
Proof. intros H b E. simpl in E. congruence. Qed.

Lemma ok_all_lift_err {A} (P : A -> Prop) e : ok_all P (lift (Err e)).
Proof. intros b E. discriminate. Qed.

Ltac ok_all_steps :=
  repeat (apply ok_all_bind; intro); apply ok_all_ret.

Lemma dispatch_shaped now j : ok_all shaped (dispatch now j).
Proof.
  destruct j; try apply ok_all_lift_err. unfold dispatch.
  repeat match goal with |- context [if ?b then _ else _] => destruct b end;
    unfold tool_sum_range, tool_avg_range, tool_get_cell, tool_set_cell, tool_to_csv;
    ok_all_steps; first [left; eexists; reflexivity | right; eexists; reflexivity].
Qed.

Lemma run_tool_unfold now req :
  run_tool now req =
  (to_response (snd (match req with ReqJson j => dispatch now j | ReqNotJson e => lift (Err (HTTPError e)) end)),
   fst (match req with ReqJson j => dispatch now j | ReqNotJson e => lift (Err (HTTPError e)) end)).
Proof. unfold run_tool. destruct req as [j|e]; [destruct (dispatch now j)|]; reflexivity. Qed.

(** ** C7 *)

(** C7: for every request to [POST /mcp/run], [run_tool] answers with
    exactly one of a [{result: ...}] body and status 200, or an
    [{error: str}] body and status 400, 404 or 500: every exception raised
    while handling the request is caught at the dispatch boundary and
    turned into an error body. *)
Theorem run_tool_result_or_error (now : Z) (req : request) :
  one_of_result_or_error (fst (run_tool now req)).
Proof.
  rewrite run_tool_unfold; simpl.
  assert (H : ok_all shaped (match req with
                             | ReqJson j => dispatch now j
                             | ReqNotJson e => lift (Err (HTTPError e)) end)).
  { destruct req; [apply dispatch_shaped | apply ok_all_lift_err]. }
  destruct (snd _) as [r|e] eqn:E.
  - destruct (H r E) as [[l ->]|[m ->]]; unfold one_of_result_or_error; simpl;
      [left | right]; eauto.
  - unfold one_of_result_or_error. destruct e; simpl; right; eauto.
Qed.

(** ** C10 *)


(** ** Dispatching *)

Lemma is_tool_true j name : is_tool j name = true -> j = JStr name.
Proof.
  destruct j; simpl; try discriminate. intros H. apply String.eqb_eq in H. congruence.
Qed.

Ltac dispatch_to H :=
  intros H; cbv beta iota zeta delta [dispatch]; unfold tool_of, params_of in H;
  rewrite H; reflexivity.

Lemma dispatch_sum now kvs :
  tool_of kvs = JStr "sum_range" -> dispatch now (JObj kvs) = tool_sum_range (params_of kvs).
Proof. dispatch_to H. Qed.

Lemma dispatch_avg now kvs :
  tool_of kvs = JStr "avg_range" -> dispatch now (JObj kvs) = tool_avg_range (params_of kvs).
Proof. dispatch_to H. Qed.

Lemma dispatch_get now kvs :
  tool_of kvs = JStr "get_cell" -> dispatch now (JObj kvs) = tool_get_cell (params_of kvs).
Proof. dispatch_to H. Qed.

Lemma dispatch_set now kvs :
  tool_of kvs = JStr "set_cell" -> dispatch now (JObj kvs) = tool_set_cell now (params_of kvs).
Proof. dispatch_to H. Qed.

Lemma dispatch_csv now kvs :
  tool_of kvs = JStr "to_csv" -> dispatch now (JObj kvs) = tool_to_csv (params_of kvs).
Proof. dispatch_to H. Qed.

Lemma param_err p k e : py_getitem p k = Err e -> param p k = ([EvParam k], Err e).
Proof. unfold param. simpl. intros ->. reflexivity. Qed.

Lemma param_ok p k v : py_getitem p k = Ok v -> param p k = ([EvParam k], Ok v).
Proof. unfold param. simpl. intros ->. reflexivity. Qed.

Lemma load_events f : load_workbook_from_b64 f = ([EvDecode], snd (load_workbook_from_b64 f)).
Proof. reflexivity. Qed.

Lemma py_getitem_err_400 p k e :
  py_getitem p k = Err e -> (to_response (Err e)).(status) = 400.
Proof.
  unfold py_getitem. destruct p; try (intros H; injection H as <-; reflexivity).
  destruct (obj_get kvs k); [discriminate|]. intros H; injection H as <-; reflexivity.
Qed.

Lemma load_err_500 f e :
  snd (load_workbook_from_b64 f) = Err e -> to_response (Err e) = error_response 500 (exn_str e).
Proof.
  unfold load_workbook_from_b64. simpl.
  destruct f; try (intros H; injection H as <-; reflexivity).
  destruct (split_first _ _) as [[h enc]|]; [|intros H; injection H as <-; reflexivity].
  destruct (decode_xlsx _) as [xf|]; [|intros H; injection H as <-; reflexivity].
  destruct (load_xfile xf) as [wb|e']; [discriminate|].
  destruct e'; intros H; injection H as <-; reflexivity.
Qed.

Lemma bind_run {A B} (m : M A) (k : A -> M B) t a :
  m = (t, Ok a) -> mbind m k = (t ++ fst (k a), snd (k a)).
Proof. intros ->. simpl. destruct (k a); reflexivity. Qed.

Lemma bind_stop {A B} (m : M A) (k : A -> M B) t e :
  m = (t, Err e) -> mbind m k = (t, Err e).
Proof. intros ->. reflexivity. Qed.

Lemma registered_cases j :
  is_registered j = true ->
  j = JStr "sum_range" \/ j = JStr "avg_range" \/ j = JStr "get_cell" \/
  j = JStr "set_cell" \/ j = JStr "to_csv".
Proof.
  unfold is_registered. intros H.
  repeat rewrite orb_true_iff in H.
  destruct H as [[[[H|H]|H]|H]|H]; apply is_tool_true in H; auto 6.
Qed.

(** The first two steps of every tool: [params['file']], then decoding. *)
Lemma tool_start now kvs :
  is_registered (tool_of kvs) = true ->
  exists K, dispatch now (JObj kvs) =
            mbind (param (params_of kvs) "file")
                  (fun f => mbind (load_workbook_from_b64 f) (K f)).
Proof.
  intros H. apply registered_cases in H.
  destruct H as [H|[H|[H|[H|H]]]];
    [rewrite dispatch_sum | rewrite dispatch_avg | rewrite dispatch_get
    | rewrite dispatch_set | rewrite dispatch_csv]; auto; eexists; reflexivity.
Qed.

(** ** C6 *)

(** C6 (amended): for a request whose body is a JSON object, an
    unregistered [tool_id] gets the ToolNotFound answer (404) before any
    parameter is read or any file decoded; for a registered tool, a
    missing [file] parameter (or [parameters] that is not an object) gets
    InvalidParameters (400) before any decoding; and since the file is
    decoded before the other parameters are read, a [file] that fails to
    load gets a 500 error whatever the other parameters are, without them
    being read. *)
Theorem dispatch_error_order (now : Z) (kvs : list (string * json)) :
  (is_registered (tool_of kvs) = false ->
   run_tool now (ReqJson (JObj kvs)) =
   (error_response 404 ("Tool with id '" ++ py_str (tool_of kvs) ++ "' not found."), [])) /\
  (forall e, is_registered (tool_of kvs) = true ->
   py_getitem (params_of kvs) "file" = Err e ->
   (fst (run_tool now (ReqJson (JObj kvs)))).(status) = 400 /\
   snd (run_tool now (ReqJson (JObj kvs))) = [EvParam "file"]) /\
  (forall f e, is_registered (tool_of kvs) = true ->
   py_getitem (params_of kvs) "file" = Ok f ->
   snd (load_workbook_from_b64 f) = Err e ->
   run_tool now (ReqJson (JObj kvs)) = (error_response 500 (exn_str e), [EvParam "file"; EvDecode])).
Proof.
  split; [|split].
  - unfold is_registered. intros H.
    repeat rewrite orb_false_iff in H.
    destruct H as [[[[H1 H2] H3] H4] H5].
    unfold run_tool. cbv beta iota zeta delta [dispatch].
    unfold tool_of in *. rewrite H1, H2, H3, H4, H5. reflexivity.
  - intros e Hr He. destruct (tool_start now kvs Hr) as [K HK].
    rewrite run_tool_unfold, HK. rewrite (bind_stop _ _ _ _ (param_err _ _ _ He)).
    split; [apply (py_getitem_err_400 _ _ _ He) | reflexivity].
  - intros f e Hr Hf Hl. destruct (tool_start now kvs Hr) as [K HK].
    rewrite run_tool_unfold, HK. rewrite (bind_run _ _ _ _ (param_ok _ _ _ Hf)).
    assert (HL : load_workbook_from_b64 f = ([EvDecode], Err e)) by (rewrite load_events, Hl; reflexivity).
    rewrite (bind_stop _ _ _ _ HL). cbn [fst snd app].
    rewrite (load_err_500 _ _ Hl). reflexivity.
Qed.

(** ** References *)

Lemma ascii_list_app a b : ascii_list (a ++ b) = ascii_list a ++ ascii_list b.
Proof. unfold ascii_list. induction a as [|c a IH]; [reflexivity|]. simpl. f_equal. exact IH. Qed.

Lemma split_first_app sep la lb :
  existsb (Ascii.eqb sep) la = false -> split_first sep (la ++ sep :: lb) = Some (la, lb).
Proof.
  induction la as [|c la IH]; simpl.
  - rewrite Ascii.eqb_refl. reflexivity.
  - intros H. apply orb_false_iff in H as [H1 H2].
    rewrite Ascii.eqb_sym, H1, IH by exact H2. reflexivity.
Qed.




(** ** C5 *)


(** ** Reading a rectangle of cells *)

Lemma key_eqb_eq a b : key_eqb a b = true <-> a = b.
Proof.
  destruct a as [a1 a2], b as [b1 b2]. unfold key_eqb. simpl.
  rewrite andb_true_iff, !Z.eqb_eq. split; [intros [-> ->]; reflexivity | intros H; injection H; auto].
Qed.

Lemma lookup_put k k' v l :
  lookup_cell k' (put_cell k v l) = if key_eqb k' k then Some v else lookup_cell k' l.
Proof.
  induction l as [|[k0 c0] l IH]; simpl; [reflexivity|].
  destruct (key_eqb k k0) eqn:E; simpl.
  - apply key_eqb_eq in E. subst k0. destruct (key_eqb k' k); reflexivity.
  - destruct (key_eqb k' k0) eqn:E2.
    + apply key_eqb_eq in E2. subst k0.
      destruct (key_eqb k' k) eqn:E3; [|reflexivity].
      apply key_eqb_eq in E3. subst k'. rewrite (proj2 (key_eqb_eq k k) eq_refl) in E. discriminate.
    + exact IH.
Qed.








(** ** The loop of [sum_range] and [avg_range] *)










(** ** [sum_range] and [avg_range] on a rectangle *)

Lemma snd_bind {A B} (m : M A) (k : A -> M B) :
  snd (mbind m k) = match snd m with Ok a => snd (k a) | Err e => Err e end.
Proof. destruct m as [t [a|e]]; simpl; [destruct (k a)|]; reflexivity. Qed.

Lemma snd_param p k : snd (param p k) = py_getitem p k.
Proof. unfold param. simpl. destruct (py_getitem p k); reflexivity. Qed.






(** ** C1 *)




(** ** C2 *)




(** ** C8 *)



(** ** Examples of C10, C6 and C5 *)



Lemma dispatch_error_order_witness :
  (is_registered (tool_of (ex_kvs "sum_total" [])) = false /\
   run_tool 0 (ReqJson (JObj (ex_kvs "sum_total" []))) =
   (error_response 404 "Tool with id 'sum_total' not found.", [])) /\
  (is_registered (tool_of (ex_kvs "sum_range" [("range", JStr "Sheet1!A1:A2")])) = true /\
   py_getitem (params_of (ex_kvs "sum_range" [("range", JStr "Sheet1!A1:A2")])) "file" =
   Err (KeyError "'file'") /\
   (fst (run_tool 0 (ReqJson (JObj (ex_kvs "sum_range" [("range", JStr "Sheet1!A1:A2")]))))).(status) = 400) /\
  (is_registered (tool_of (ex_kvs "get_cell" [("file", JStr "bad")])) = true /\
   py_getitem (params_of (ex_kvs "get_cell" [("file", JStr "bad")])) "file" = Ok (JStr "bad") /\
   snd (load_workbook_from_b64 (JStr "bad")) =
   Err (ValueError "Invalid base64 file format: not enough values to unpack (expected 2, got 1)") /\
   run_tool 0 (ReqJson (JObj (ex_kvs "get_cell" [("file", JStr "bad")]))) =
   (error_response 500 "Invalid base64 file format: not enough values to unpack (expected 2, got 1)",
    [EvParam "file"; EvDecode])).
Proof.
  split; [|split].
  - assert (H : is_registered (tool_of (ex_kvs "sum_total" [])) = false) by reflexivity.
    split; [exact H|]. rewrite (proj1 (dispatch_error_order 0 _) H). reflexivity.
  - assert (H1 : is_registered (tool_of (ex_kvs "sum_range" [("range", JStr "Sheet1!A1:A2")])) = true)
      by reflexivity.
    assert (H2 : py_getitem (params_of (ex_kvs "sum_range" [("range", JStr "Sheet1!A1:A2")])) "file" =
                 Err (KeyError "'file'")) by (vm_compute; reflexivity).
    split; [exact H1|]. split; [exact H2|].
    exact (proj1 (proj1 (proj2 (dispatch_error_order 0 _)) _ H1 H2)).
  - assert (H1 : is_registered (tool_of (ex_kvs "get_cell" [("file", JStr "bad")])) = true)
      by reflexivity.
    assert (H2 : py_getitem (params_of (ex_kvs "get_cell" [("file", JStr "bad")])) "file" = Ok (JStr "bad"))
      by reflexivity.
    assert (H3 : snd (load_workbook_from_b64 (JStr "bad")) =
                 Err (ValueError "Invalid base64 file format: not enough values to unpack (expected 2, got 1)"))
      by (vm_compute; reflexivity).
    split; [exact H1|]. split; [exact H2|]. split; [exact H3|].
    exact (proj2 (proj2 (dispatch_error_order 0 _)) _ _ H1 H2 H3).
Defined.

(** C6 fails when the missing parameter is not [file]: a [sum_range]
    request with no [range] and a [file] that does not decode gets the
    decoding error (500), not InvalidParameters (400), after the file was
    decoded. *)
Lemma missing_range_decoded_cex :
  py_getitem (params_of (ex_kvs "sum_range" [("file", JStr "bad")])) "range" = Err (KeyError "'range'") /\
  run_tool 0 (ex_request "sum_range" [("file", JStr "bad")]) =
  (error_response 500 "Invalid base64 file format: not enough values to unpack (expected 2, got 1)",
   [EvParam "file"; EvDecode]).
Proof. split; vm_compute; reflexivity. Qed.



(** ** Reading back the CSV text *)












(** ** C4 *)




(** ** C3 and C9: [set_cell], then [get_cell] *)

(** *** Lists related elementwise *)

Lemma map_r_Forall2 {X Y} (f : X -> result Y) l l' :
  map_r f l = Ok l' -> Forall2 (fun a b => f a = Ok b) l l'.
Proof.
  revert l'; induction l as [|x l IH]; simpl; intros l' H.
  - injection H as <-. constructor.
  - destruct (f x) as [y|e] eqn:E; [|discriminate]. simpl in H.
    destruct (map_r f l) as [ys|e] eqn:E2; [|discriminate]. injection H as <-.
    constructor; auto.
Qed.

Lemma Forall2_compose {A B C} (P : A -> B -> Prop) (Q : B -> C -> Prop) la lb lc :
  Forall2 P la lb -> Forall2 Q lb lc -> Forall2 (fun a c => exists b, P a b /\ Q b c) la lc.
Proof.
  intros H1. revert lc. induction H1; intros lc H2; inversion H2; subst; constructor; eauto.
Qed.

(** Finding a sheet by title in related lists of sheets. *)
Lemma find_title_Forall2 (R : sheet -> sheet -> Prop) l l' name a :
  Forall2 (fun a b => title b = title a /\ R a b) l l' ->
  find (fun sh => String.eqb sh.(title) name) l = Some a ->
  exists b, find (fun sh => String.eqb sh.(title) name) l' = Some b /\ R a b.
Proof.
  induction 1 as [|x y l l' [Ht Hr] _ IH]; simpl; [discriminate|].
  rewrite Ht. destruct (String.eqb (title x) name); [intros H; injection H as <-; eauto | exact IH].
Qed.

Lemma find_replace_sheet name sh' l a :
  find (fun sh => String.eqb sh.(title) name) l = Some a -> title sh' = name ->
  find (fun sh => String.eqb sh.(title) name) (replace_sheet name sh' l) = Some sh'.
Proof.
  intros H Ht. induction l as [|s l IH]; simpl in *; [discriminate|].
  destruct (String.eqb (title s) name) eqn:E; simpl.
  - rewrite Ht, String.eqb_refl. reflexivity.
  - rewrite E. auto.
Qed.

(** *** Cell dictionaries with distinct keys *)

Lemma key_eqb_refl k : key_eqb k k = true.
Proof. apply key_eqb_eq. reflexivity. Qed.

Lemma put_cell_keys k c l x : In x (map fst (put_cell k c l)) -> x = k \/ In x (map fst l).
Proof.
  induction l as [|[k' c'] l IH]; simpl; [intuition|].
  destruct (key_eqb k k') eqn:E; simpl.
  - apply key_eqb_eq in E. subst. tauto.
  - intros [H|H]; [tauto|]. destruct (IH H); tauto.
Qed.

Lemma put_cell_nodup k c l : List.NoDup (map fst l) -> List.NoDup (map fst (put_cell k c l)).
Proof.
  induction l as [|[k' c'] l IH]; simpl; intros H.
  - constructor; [simpl; tauto | constructor].
  - inversion H as [|? ? Hn Hd]; subst.
    destruct (key_eqb k k') eqn:E; simpl.
    + apply key_eqb_eq in E. subst. constructor; assumption.
    + constructor; [|auto]. intros Hin. apply put_cell_keys in Hin as [Hin|Hin]; [|contradiction].
      subst. rewrite key_eqb_refl in E. discriminate.
Qed.

Lemma lookup_cell_none k l : ~ In k (map fst l) -> lookup_cell k l = None.
Proof.
  induction l as [|[k' c'] l IH]; simpl; [reflexivity|]. intros H.
  destruct (key_eqb k k') eqn:E; [apply key_eqb_eq in E; subst; tauto|]. auto.
Qed.

Lemma lookup_fold_put k l acc :
  List.NoDup (map fst l) ->
  lookup_cell k (fold_left (fun acc kc => put_cell (fst kc) (snd kc) acc) l acc) =
  match lookup_cell k l with Some v => Some v | None => lookup_cell k acc end.
Proof.
  revert acc; induction l as [|[k' c'] l IH]; simpl; intros acc H; [reflexivity|].
  inversion H as [|? ? Hn Hd]; subst. rewrite IH by exact Hd. rewrite lookup_put.
  destruct (key_eqb k k') eqn:E.
  - apply key_eqb_eq in E. subst. rewrite lookup_cell_none by exact Hn. reflexivity.
  - destruct (lookup_cell k l); reflexivity.
Qed.

Lemma fold_put_nodup l acc :
  List.NoDup (map fst acc) ->
  List.NoDup (map fst (fold_left (fun acc kc => put_cell (fst kc) (snd kc) acc) l acc)).
Proof.
  revert acc; induction l as [|kc l IH]; simpl; intros acc H; [exact H|].
  apply IH, put_cell_nodup, H.
Qed.

Lemma lookup_Forall2 (R : (Z * Z) * cell -> (Z * Z) * cell -> Prop) l l' k v :
  Forall2 R l l' -> (forall a b, R a b -> fst b = fst a) ->
  lookup_cell k l = Some v -> exists v', lookup_cell k l' = Some v' /\ R (k, v) (k, v').
Proof.
  intros H HR. induction H as [|[k1 c1] [k2 c2] l l' Hr _ IH]; simpl; [discriminate|].
  pose proof (HR _ _ Hr) as Hk; simpl in Hk; subst k2.
  destruct (key_eqb k k1) eqn:E; [|exact IH]. apply key_eqb_eq in E; subst k1.
  intros Hv; injection Hv as <-. eauto.
Qed.

Lemma Forall2_keys (P : (Z * Z) * cell -> (Z * Z) * cell -> Prop) l l' :
  Forall2 P l l' -> (forall a b, P a b -> fst b = fst a) -> map fst l' = map fst l.
Proof. induction 1; simpl; intros H'; [reflexivity|]. f_equal; auto. Qed.

(** *** A single-cell key *)

Lemma ws_getitem_cell sh addr sh1 rc c0 :
  ws_getitem sh addr = Ok (sh1, SelCell rc c0) ->
  title sh1 = title sh /\
  (List.NoDup (map fst sh.(cells)) -> List.NoDup (map fst sh1.(cells))) /\
  forall sh2 cc, lookup_cell rc sh2.(cells) = Some cc -> ws_getitem sh2 addr = Ok (sh2, SelCell rc cc).
Proof.
  intros H. unfold ws_getitem in H.
  destruct (range_boundaries addr) as [[[[mc mr] xc] xr]|e] eqn:B; simpl in H; [|discriminate].
  destruct (negb _) eqn:T; [discriminate|].
  destruct mr as [r|].
  2: { destruct (iter_cols _ _ _ _ _) as [[sh1' cols]|e]; simpl in H; [|discriminate].
       repeat (match type of H with context [match ?x with _ => _ end] => destruct x end);
       discriminate. }
  destruct mc as [c|].
  2: { destruct (iter_rows _ _ _ _ _) as [[sh1' rows]|e]; simpl in H; [|discriminate].
       repeat (match type of H with context [match ?x with _ => _ end] => destruct x end);
       discriminate. }
  destruct (negb (has_colon addr)) eqn:C.
  2: { destruct (iter_rows _ _ _ _ _) as [[sh1' rows]|e]; simpl in H; discriminate. }
  unfold get_cell_at in H. destruct ((0 <? r) && (r <? 1048577)) eqn:Bd; [|discriminate].
  assert (K : forall sh2 cc, lookup_cell (r, c) sh2.(cells) = Some cc ->
              ws_getitem sh2 addr = Ok (sh2, SelCell (r, c) cc)).
  { intros sh2 cc L2. unfold ws_getitem. rewrite B. cbv beta iota delta [rbind]. rewrite T, C.
    unfold get_cell_at. rewrite Bd, L2. reflexivity. }
  destruct (lookup_cell (r, c) (cells sh)) eqn:L; simpl in H; injection H as <- <- <-.
  - split; [reflexivity | split; [auto | exact K]].
  - split; [reflexivity | split; [apply put_cell_nodup | exact K]].
Qed.

(** *** A successful [set_cell] *)

Lemma snd_lift {A} (r : result A) : snd (lift r) = r.
Proof. reflexivity. Qed.

Lemma set_cell_ok now params resp :
  snd (tool_set_cell now params) = Ok resp ->
  exists f wb c name addr nv sh v sh' x,
    py_getitem params "file" = Ok f /\ snd (load_workbook_from_b64 f) = Ok wb /\
    py_getitem params "cell" = Ok c /\ parse_range_string c = Ok (name, addr) /\
    py_getitem params "value" = Ok nv /\ wb_getitem wb name = Ok sh /\
    coerce_value nv = Ok v /\ ws_setitem sh addr v = Ok sh' /\
    save_workbook now (wb_put_sheet wb name sh') = Ok x /\
    resp = result_response [("file", JStr (xlsx_url x))].
Proof.
  unfold tool_set_cell.
  rewrite snd_bind, snd_param. destruct (py_getitem params "file") as [f|e] eqn:E1; [|discriminate]. cbv beta iota.
  rewrite snd_bind. destruct (snd (load_workbook_from_b64 f)) as [wb|e] eqn:E2; [|discriminate]. cbv beta iota.
  rewrite snd_bind, snd_param. destruct (py_getitem params "cell") as [c|e] eqn:E3; [|discriminate]. cbv beta iota.
  rewrite snd_bind, snd_lift. destruct (parse_range_string c) as [[name addr]|e] eqn:E4; [|discriminate]. cbv beta iota.
  rewrite snd_bind, snd_param. destruct (py_getitem params "value") as [nv|e] eqn:E5; [|discriminate]. cbv beta iota.
  rewrite snd_bind, snd_lift. destruct (wb_getitem wb (fst (name, addr))) as [sh|e] eqn:E6; [|discriminate]. cbv beta iota.
  rewrite snd_bind, snd_lift. destruct (coerce_value nv) as [v|e] eqn:E7; [|discriminate]. cbv beta iota.
  rewrite snd_bind, snd_lift. destruct (ws_setitem sh (snd (name, addr)) v) as [sh'|e] eqn:E8; [|discriminate]. cbv beta iota.
  rewrite snd_bind, snd_lift. destruct (save_workbook now _) as [x|e] eqn:E9; [|discriminate]. cbv beta iota.
  intros H. injection H as <-.
  exists f, wb, c, name, addr, nv, sh, v, sh', x. tauto.
Qed.

Lemma status_200_set now kvs :
  tool_of kvs = JStr "set_cell" ->
  (fst (run_tool now (ReqJson (JObj kvs)))).(status) = 200 ->
  snd (tool_set_cell now (params_of kvs)) = Ok (fst (run_tool now (ReqJson (JObj kvs)))).
Proof.
  intros Ht. rewrite run_tool_unfold, dispatch_set by exact Ht. cbn [fst].
  destruct (snd (tool_set_cell now (params_of kvs))) as [resp|e]; [reflexivity|].
  destruct e; discriminate.
Qed.

(** *** Reading the returned file *)

Lemma load_xlsx_url x :
  snd (load_workbook_from_b64 (JStr (xlsx_url x))) =
  match load_xfile x with
  | Ok wb => Ok wb
  | Err ((ValueError m | TypeError m)) => Err (ValueError ("Invalid base64 file format: " ++ m))
  | Err e => Err (OSError ("Failed to parse Excel file: " ++ exn_str e))
  end.
Proof.
  unfold load_workbook_from_b64, xlsx_url. cbn [snd mbind emit lift].
  rewrite ascii_list_app.
  change (ascii_list "data:application/vnd.openxmlformats-officedocument.spreadsheetml.sheet;base64,")
    with (ascii_list url_prefix ++ [","%char]).
  rewrite <- app_assoc. cbn [app].
  rewrite split_first_app by reflexivity.
  unfold ascii_list. rewrite string_of_list_ascii_of_string, decode_encode_xlsx.
  reflexivity.
Qed.

Lemma save_sheet_title sh xsh : save_sheet sh = Ok xsh -> xtitle xsh = title sh.
Proof. unfold save_sheet. destruct (map_r write_cell _); [|discriminate]. intros H; injection H as <-. reflexivity. Qed.

Lemma load_sheet_title sst xsh sh : load_sheet sst xsh = Ok sh -> title sh = xtitle xsh.
Proof. unfold load_sheet. destruct (map_r _ _); [|discriminate]. intros H; injection H as <-. reflexivity. Qed.

Lemma load_sheet_cells sst xsh sh :
  load_sheet sst xsh = Ok sh ->
  exists kcs, map_r (parse_cell sst) xsh.(xcells) = Ok kcs /\
              sh.(cells) = fold_left (fun acc kc => put_cell (fst kc) (snd kc) acc) kcs [].
Proof.
  unfold load_sheet. destruct (map_r _ _) as [kcs|]; [|discriminate]. intros H; injection H as <-. eauto.
Qed.

Lemma load_sheet_nodup sst xsh sh : load_sheet sst xsh = Ok sh -> List.NoDup (map fst sh.(cells)).
Proof.
  intros H. apply load_sheet_cells in H as (kcs & _ & ->). apply fold_put_nodup. constructor.
Qed.

Lemma loaded_nodup f wb :
  snd (load_workbook_from_b64 f) = Ok wb -> Forall (fun sh => List.NoDup (map fst sh.(cells))) wb.(sheets).
Proof.
  unfold load_workbook_from_b64. cbn [snd mbind emit lift].
  destruct f; try discriminate.
  destruct (split_first _ _) as [[h enc]|]; [|discriminate].
  destruct (decode_xlsx _) as [x|]; [|discriminate].
  destruct (load_xfile x) as [wb'|e] eqn:L; [|destruct e; discriminate].
  intros H; injection H as <-. unfold load_xfile in L.
  destruct (map_r _ _) as [shs|] eqn:S; [|discriminate]. injection L as <-. simpl.
  apply map_r_Forall2 in S. induction S; constructor; eauto using load_sheet_nodup.
Qed.

Lemma write_cell_key kc xc : write_cell kc = Ok xc -> xr xc = fst kc.
Proof.
  destruct kc as [k c]. unfold write_cell.
  destruct (is_empty_value (cvalue c)); [intros H; injection H as <-; reflexivity|].
  destruct (ctype c), (cvalue c); simpl; unfold rbind;
    repeat (match goal with |- context [match ?x with _ => _ end] => destruct x end);
    intros H; try discriminate; injection H as <-; reflexivity.
Qed.

Lemma parse_cell_key sst xc kc : parse_cell sst xc = Ok kc -> fst kc = xr xc.
Proof.
  unfold parse_cell.
  destruct (xf xc); [intros H; injection H as <-; reflexivity|].
  destruct (match xt xc with XInline => None | _ => _ end) as [v|].
  - destruct (xt xc).
    all: try (intros H; injection H as <-; reflexivity).
    + destruct (cast_number v); simpl; [intros H; injection H as <-; reflexivity | discriminate].
    + destruct (py_int v); simpl; [|discriminate]. destruct (py_index sst a); simpl; [|discriminate].
      intros H; injection H as <-; reflexivity.
    + destruct (py_int v); simpl; [intros H; injection H as <-; reflexivity | discriminate].
  - destruct (xt xc); try (intros H; injection H as <-; reflexivity).
    destruct (xis xc); intros H; injection H as <-; reflexivity.
Qed.

(** *** The text written for a float *)

Lemma digit_char_not_cr d : (Z.to_nat d <= 9)%nat -> not_cr (digit_char d).
Proof.
  unfold not_cr, digit_char. intros H.
  destruct (Z.to_nat d) as [|[|[|[|[|[|[|[|[|[|n]]]]]]]]]]; try reflexivity. lia.
Qed.

Lemma digits_rev_not_cr fuel n : Forall not_cr (digits_rev fuel n).
Proof.
  revert n; induction fuel as [|fuel IH]; intros n; simpl; [constructor|].
  destruct (n <? 10) eqn:E.
  - constructor; [|constructor]. apply digit_char_not_cr. apply Z.ltb_lt in E. lia.
  - constructor; [|apply IH]. apply digit_char_not_cr.
    pose proof (Z.mod_pos_bound n 10). lia.
Qed.

Lemma Forall_firstn_not_cr n l : Forall not_cr l -> Forall not_cr (firstn n l).
Proof.
  revert l; induction n as [|n IH]; intros l H; [constructor|].
  destruct H; simpl; constructor; auto.
Qed.

Lemma Forall_skipn_not_cr n l : Forall not_cr l -> Forall not_cr (skipn n l).
Proof.
  revert l; induction n as [|n IH]; intros l H; [exact H|].
  destruct H; simpl; [constructor | auto].
Qed.

Lemma Forall_drop_zeros_not_cr l : Forall not_cr l -> Forall not_cr (drop_zeros l).
Proof. induction 1 as [|c l Hc Hl IH]; simpl; [constructor|]. destruct (Ascii.eqb c "0"); auto. Qed.

Lemma Forall_repeat_zero n : Forall not_cr (repeat "0"%char n).
Proof. induction n; simpl; constructor; auto. reflexivity. Qed.

Lemma z_digits_not_cr n : Forall not_cr (z_digits n).
Proof. apply Forall_rev, digits_rev_not_cr. Qed.

Lemma z_digits_nonempty n : z_digits n <> [].
Proof.
  unfold z_digits. simpl digits_rev. destruct (n <? 10); simpl; [discriminate|].
  apply not_eq_sym, app_cons_not_nil.
Qed.

Lemma strip_trailing_zeros_not_cr l : Forall not_cr l -> Forall not_cr (strip_trailing_zeros l).
Proof. intros H. apply Forall_rev, Forall_drop_zeros_not_cr, Forall_rev, H. Qed.

Lemma dot_part_not_cr l : Forall not_cr l -> Forall not_cr (dot_part l).
Proof. destruct l; simpl; intros H; [constructor | constructor; [reflexivity | exact H]]. Qed.

Lemma sign_text_not_cr b : Forall not_cr (sign_text b).
Proof. destruct b; repeat constructor. Qed.

Lemma exp_text_not_cr X : Forall not_cr (exp_text X).
Proof.
  unfold exp_text. constructor; [destruct (X <? 0); reflexivity|].
  destruct (_ <? 2)%nat; [constructor; [reflexivity|]|]; apply z_digits_not_cr.
Qed.

Lemma app_nonempty_r {A} (l1 l2 : list A) : l2 <> [] -> l1 ++ l2 <> [].
Proof. destruct l1, l2; simpl; congruence. Qed.

Lemma app_nonempty_l {A} (l1 l2 : list A) : l1 <> [] -> l1 ++ l2 <> [].
Proof. destruct l1; simpl; congruence. Qed.

Lemma firstn_nonempty {A} n (l : list A) : (0 < n)%nat -> l <> [] -> firstn n l <> [].
Proof. destruct n, l; simpl; try congruence. lia. Qed.

Lemma Forall_app_not_cr l1 l2 : Forall not_cr l1 -> Forall not_cr l2 -> Forall not_cr (l1 ++ l2).
Proof. intros. apply Forall_app. split; assumption. Qed.

Create HintDb fmt.
#[local] Hint Resolve Forall_app_not_cr Forall_cons Forall_nil : fmt.
#[local] Hint Extern 1 (not_cr _) => reflexivity : fmt.
#[local] Hint Resolve sign_text_not_cr exp_text_not_cr dot_part_not_cr strip_trailing_zeros_not_cr
  Forall_repeat_zero z_digits_not_cr Forall_firstn_not_cr Forall_skipn_not_cr : fmt.

Lemma fmt_g16_text f :
  f64_is_finite f = true -> Forall not_cr (fmt_g16 f) /\ fmt_g16 f <> [].
Proof.
  destruct f as [neg m e| |]; try discriminate. intros _. unfold fmt_g16.
  destruct (m =? 0).
  - split; [auto with fmt | apply app_nonempty_r; discriminate].
  - destruct (scale2 m 1 (- e)) as [p q]. destruct (round_sig 16 p q) as [D X].
    split.
    + destruct ((-4 <=? X) && (X <? 16)); [destruct (0 <=? X)|]; auto 10 with fmt.
    + apply app_nonempty_r.
      destruct ((-4 <=? X) && (X <? 16)) eqn:R; [destruct (0 <=? X) eqn:R0|].
      * apply app_nonempty_l, firstn_nonempty; [|apply z_digits_nonempty]. apply Z.leb_le in R0. lia.
      * discriminate.
      * apply app_nonempty_l, firstn_nonempty; [lia | apply z_digits_nonempty].
Qed.

Lemma xml_eol_id l : Forall not_cr l -> xml_eol l = l.
Proof. induction 1 as [|c l Hc Hl IH]; simpl; [reflexivity|]. unfold not_cr in Hc. rewrite Hc, IH. reflexivity. Qed.

Lemma xml_text_list l : Forall not_cr l -> xml_text (string_of_list_ascii l) = string_of_list_ascii l.
Proof. intros H. unfold xml_text, ascii_list. rewrite list_ascii_of_string_of_list_ascii, xml_eol_id by exact H. reflexivity. Qed.

Lemma substring_all s : substring 0 (String.length s) s = s.
Proof. induction s as [|a s IH]; simpl; [reflexivity|]. rewrite IH. reflexivity. Qed.

(** *** The value read back from the written cell *)

Lemma read_back_cell s v c0 c' rc xc kc :
  coerce_value (JStr s) = Ok v -> bind_value v c0 = Ok c' ->
  write_cell (rc, c') = Ok xc -> parse_cell [] xc = Ok kc ->
  read_back s = Ok (json_of_value (snd kc).(cvalue)).
Proof.
  simpl. unfold read_back. destruct (py_float_of_str s) as [fl|] eqn:Hf;
    intros Hv; injection Hv as <-; cbv beta iota.
  - simpl. intros Hb; injection Hb as <-. simpl. intros Hw; injection Hw as <-.
    destruct (f64_is_finite fl) eqn:Fin.
    + destruct (fmt_g16_text fl Fin) as [Hc Hne].
      pose proof (xml_text_list _ Hc) as Ex.
      destruct (fmt_g16 fl) as [|a l]; [congruence|].
      unfold parse_cell. simpl. simpl in Ex. rewrite Ex.
      destruct (cast_number _) as [n|e]; simpl; [|discriminate].
      intros H; injection H as <-. reflexivity.
    + unfold parse_cell. simpl. intros H; injection H as <-. reflexivity.
  - unfold bind_value. destruct (check_string s) as [t|e]; [|discriminate]. unfold rbind.
    intros Hb.
    destruct ((1 <? String.length t)%nat && starts_with_eq t) eqn:Df in Hb;
      [|destruct (existsb (String.eqb t) ERROR_CODES) eqn:De in Hb];
      injection Hb as <-; destruct (String.eqb t "") eqn:Et;
      try (apply String.eqb_eq in Et; subst t; discriminate).
    + unfold write_cell; cbn [cvalue ctype cstyle is_empty_value xtype_of]; rewrite Et.
      intros Hw; injection Hw as <-. unfold parse_cell; cbn [xf xt xv xis].
      intros Hp; injection Hp as <-. cbn.
      destruct t as [|a rest]; [discriminate|].
      apply andb_true_iff in Df as [_ Da]. simpl in Da. apply Ascii.eqb_eq in Da. subst a.
      simpl. rewrite Nat.sub_0_r, substring_all. reflexivity.
    + simpl. rewrite Et. intros Hw; injection Hw as <-. unfold parse_cell. simpl.
      destruct t as [|a rest]; [discriminate|]. simpl.
      intros Hp; injection Hp as <-. reflexivity.
    + apply String.eqb_eq in Et. subst t. simpl. intros Hw; injection Hw as <-.
      unfold parse_cell. simpl. intros Hp; injection Hp as <-. reflexivity.
    + simpl. rewrite Et. intros Hw; injection Hw as <-. unfold parse_cell. simpl.
      intros Hp; injection Hp as <-. reflexivity.
Qed.

(** *** set_cell, then get_cell on the returned file *)

Lemma get_request_params u ref :
  py_getitem (params_of [("tool_id", JStr "get_cell");
                         ("parameters", JObj [("file", JStr u); ("cell", JStr ref)])]) "file" = Ok (JStr u) /\
  py_getitem (params_of [("tool_id", JStr "get_cell");
                         ("parameters", JObj [("file", JStr u); ("cell", JStr ref)])]) "cell" = Ok (JStr ref).
Proof. split; reflexivity. Qed.

Lemma set_then_get now now' kvs ref s :
  tool_of kvs = JStr "set_cell" ->
  py_getitem (params_of kvs) "cell" = Ok (JStr ref) ->
  py_getitem (params_of kvs) "value" = Ok (JStr s) ->
  (fst (run_tool now (ReqJson (JObj kvs)))).(status) = 200 ->
  loads (JStr (response_file (fst (run_tool now (ReqJson (JObj kvs)))))) = true ->
  exists j, read_back s = Ok j /\
    fst (run_tool now' (get_cell_request (response_file (fst (run_tool now (ReqJson (JObj kvs))))) ref)) =
    result_response [("value", j)].
Proof.
  intros Ht Hc Hv Hs Hl.
  pose proof (status_200_set now kvs Ht Hs) as Hok.
  destruct (set_cell_ok _ _ _ Hok)
    as (f & wb & c & name & addr & nv & sh & v & sh' & x & Hf & Hw & Hc' & Hp & Hv' & Hg & Hcv & Hset & Hsave & Er).
  rewrite Er in Hl |- *. clear Hok Hs Er.
  rewrite Hc in Hc'. injection Hc' as <-. rewrite Hv in Hv'. injection Hv' as <-.
  change (response_file (result_response [("file", JStr (xlsx_url x))])) with (xlsx_url x) in Hl |- *.
  unfold loads in Hl. rewrite load_xlsx_url in Hl.
  destruct (load_xfile x) as [wb2|e] eqn:Lx; [clear Hl | destruct e; discriminate].
  pose proof Lx as Lx0.
  (* the cell written *)
  unfold ws_setitem in Hset. destruct (ws_getitem sh addr) as [[sh1 sel]|e] eqn:G; [|discriminate].
  cbv beta iota delta [rbind] in Hset. destruct sel as [rc c0| |]; try discriminate.
  destruct (bind_value v c0) as [c'|e] eqn:Bv; [|discriminate]. injection Hset as <-.
  destruct (ws_getitem_cell _ _ _ _ _ G) as (Tt & Nd & K).
  cbn [fst snd] in Hg, Hsave.
  unfold wb_getitem in Hg. destruct (find _ (sheets wb)) as [sh0|] eqn:Fd; [|discriminate]. injection Hg as ->.
  pose proof (find_some _ _ Fd) as [Hin Hname]. apply String.eqb_eq in Hname.
  pose proof (loaded_nodup _ _ Hw) as Hnd. rewrite List.Forall_forall in Hnd. specialize (Hnd sh Hin).
  (* saving and loading the workbook *)
  unfold save_workbook in Hsave. destruct (map_r save_sheet _) as [xss|e] eqn:S; [|discriminate].
  injection Hsave as <-.
  unfold load_xfile in Lx. cbn [xsheets xsst] in Lx.
  destruct (map_r (load_sheet []) xss) as [shs|e] eqn:L; [|discriminate]. injection Lx as <-.
  apply map_r_Forall2 in S, L. cbn [sheets wb_put_sheet] in S.
  pose proof (Forall2_compose _ _ _ _ _ S L) as SL.
  set (sh'' := mkSheet (title sh1) (put_cell rc c' (cells sh1)) (current_row sh1)) in *.
  assert (SL' : Forall2 (fun a b => title b = title a /\
                          exists xsh, save_sheet a = Ok xsh /\ load_sheet [] xsh = Ok b)
                  (replace_sheet name sh'' (sheets wb)) shs).
  { eapply Forall2_impl; [exact SL|]. intros a b (xsh & Sa & Lb). split; [|eauto].
    rewrite (load_sheet_title _ _ _ Lb), (save_sheet_title _ _ Sa). reflexivity. }
  assert (Tn : title sh'' = name) by (simpl; rewrite Tt; exact Hname).
  destruct (find_title_Forall2 _ _ _ name _ SL' (find_replace_sheet name sh'' _ _ Fd Tn))
    as (sh2 & F2 & xsh & Sx & Lx2).
  (* the cells of the reloaded sheet *)
  unfold save_sheet in Sx. destruct (map_r write_cell (cells sh'')) as [xcs|e] eqn:W; [|discriminate].
  injection Sx as <-.
  destruct (load_sheet_cells _ _ _ Lx2) as (kcs & P & Ec). cbn [xcells] in P.
  apply map_r_Forall2 in W, P. pose proof (Forall2_compose _ _ _ _ _ W P) as WP.
  assert (HR : forall a b, (exists xc, write_cell a = Ok xc /\ parse_cell [] xc = Ok b) -> fst b = fst a).
  { intros a b (xc & Wa & Pb). rewrite (parse_cell_key _ _ _ Pb), (write_cell_key _ _ Wa). reflexivity. }
  assert (Hk : map fst kcs = map fst (cells sh'')) by (eapply Forall2_keys; [exact WP | exact HR]).
  assert (L1 : lookup_cell rc (cells sh'') = Some c') by (simpl; rewrite lookup_put, key_eqb_refl; reflexivity).
  destruct (lookup_Forall2 _ _ _ _ _ WP HR L1) as (cc & L2 & xc & Wc & Pc).
  assert (L3 : lookup_cell rc (cells sh2) = Some cc).
  { rewrite Ec, lookup_fold_put, L2; [reflexivity|]. rewrite Hk. simpl. apply put_cell_nodup, Nd, Hnd. }
  pose proof (K sh2 cc L3) as G2.
  (* get_cell *)
  unfold get_cell_request. rewrite run_tool_unfold, dispatch_get by reflexivity. cbn [fst]. unfold tool_get_cell.
  rewrite snd_bind, snd_param.
  rewrite (proj1 (get_request_params _ _)). cbv beta iota.
  rewrite snd_bind, load_xlsx_url, Lx0. cbv beta iota.
  rewrite snd_bind, snd_param.
  rewrite (proj2 (get_request_params _ _)). cbv beta iota.
  rewrite snd_bind, snd_lift, Hp. cbv beta iota. cbn [fst snd].
  rewrite snd_bind, snd_lift. unfold wb_getitem. cbn [sheets]. rewrite F2. cbv beta iota.
  rewrite snd_bind, snd_lift, G2. cbv beta iota.
  rewrite snd_bind, snd_lift. cbn [sel_value snd]. cbv beta iota.
  rewrite (read_back_cell _ _ _ _ _ _ _ Hcv Bv Wc Pc). eauto.
Qed.

Lemma substring_0_short n s : (String.length s <= n)%nat -> substring 0 n s = s.
Proof.
  revert n; induction s as [|a s IH]; intros n H; simpl in *; [destruct n; reflexivity|].
  destruct n as [|n]; [lia|]. simpl. rewrite IH by lia. reflexivity.
Qed.

Lemma xml_text_no_cr s : existsb (fun c => Ascii.eqb c CR) (ascii_list s) = false -> xml_text s = s.
Proof.
  intros H. rewrite <- (string_of_list_ascii_of_string s) at 1 2. fold (ascii_list s).
  apply xml_text_list. apply List.Forall_forall. intros c Hc. unfold not_cr.
  destruct (Ascii.eqb c CR) eqn:E; [|reflexivity].
  assert (existsb (fun c => Ascii.eqb c CR) (ascii_list s) = true) by (apply existsb_exists; eauto).
  congruence.
Qed.

(** ** C3 *)

(** C3 (amended): for a [set_cell] request whose [cell] is a reference
    and whose [value] is a string [s], if [set_cell] answers with status
    200 and the file it returns loads, then [get_cell] on that file and the
    same reference answers with [read_back s]: for an [s] that [float()]
    parses, the ["%.16g"] text of the float as openpyxl reads it back (an
    int when that text has no point and no exponent, null for NaN and
    infinities), which need not be the parsed float; otherwise [s] cut to
    32767 characters with its carriage returns read as line feeds, and
    null for the empty string.  So a string comes back verbatim when it
    does not parse as a float, is not empty, has at most 32767 characters
    and no carriage return. *)
Theorem set_cell_get_cell_round_trip (now now' : Z) kvs ref s :
  tool_of kvs = JStr "set_cell" ->
  py_getitem (params_of kvs) "cell" = Ok (JStr ref) ->
  py_getitem (params_of kvs) "value" = Ok (JStr s) ->
  (fst (run_tool now (ReqJson (JObj kvs)))).(status) = 200 ->
  loads (JStr (response_file (fst (run_tool now (ReqJson (JObj kvs)))))) = true ->
  let u := response_file (fst (run_tool now (ReqJson (JObj kvs)))) in
  fst (run_tool now' (get_cell_request u ref)) = answer (read_back s) /\
  (py_float_of_str s = None -> (String.length s <= 32767)%nat ->
   existsb (fun c => Ascii.eqb c CR) (ascii_list s) = false -> s <> ""%string ->
   fst (run_tool now' (get_cell_request u ref)) = result_response [("value", JStr s)]).
Proof.
  intros Ht Hc Hv Hs Hl u.
  destruct (set_then_get now now' kvs ref s Ht Hc Hv Hs Hl) as (j & Hj & E).
  fold u in E. rewrite E, Hj. split; [reflexivity|].
  intros Hf Hn Hcr Hne. unfold read_back in Hj. rewrite Hf in Hj. unfold check_string in Hj.
  rewrite substring_0_short in Hj by exact Hn.
  destruct (existsb illegal_char (ascii_list s)); [discriminate|]. cbn in Hj.
  destruct (String.eqb s "") eqn:E0; [apply String.eqb_eq in E0; contradiction|].
  injection Hj as <-. rewrite xml_text_no_cr by exact Hcr. reflexivity.
Qed.

(** ** C9 *)

(** C9 (amended): for a [set_cell] request whose [value] string [s]
    parses as the float [f] (["5"], ["inf"] and ["nan"] included), the
    value stored into the cell is the float [f] (data type ['n']), never an
    int; but [get_cell] on the returned file reads the cell back from the
    ["%.16g"] text of [f]: an int when that text has no point and no
    exponent ([5] for ["5"]), a float otherwise, and null for NaN and
    infinities. *)
Theorem set_cell_float_value (now now' : Z) kvs ref s f :
  tool_of kvs = JStr "set_cell" ->
  py_getitem (params_of kvs) "cell" = Ok (JStr ref) ->
  py_getitem (params_of kvs) "value" = Ok (JStr s) ->
  py_float_of_str s = Some f ->
  (fst (run_tool now (ReqJson (JObj kvs)))).(status) = 200 ->
  loads (JStr (response_file (fst (run_tool now (ReqJson (JObj kvs)))))) = true ->
  coerce_value (JStr s) = Ok (NFloat f) /\
  (forall c, bind_value (NFloat f) c = Ok (mkCell (VFloat f) DN c.(cstyle))) /\
  fst (run_tool now' (get_cell_request (response_file (fst (run_tool now (ReqJson (JObj kvs))))) ref)) =
  answer (if f64_is_finite f
          then (v <- cast_number (string_of_list_ascii (fmt_g16 f)) ;; Ok (json_of_value v))
          else Ok JNull).
Proof.
  intros Ht Hc Hv Hf Hs Hl.
  split; [simpl; rewrite Hf; reflexivity|]. split; [reflexivity|].
  destruct (set_then_get now now' kvs ref s Ht Hc Hv Hs Hl) as (j & Hj & E).
  unfold read_back in Hj. rewrite Hf in Hj. rewrite E, Hj. reflexivity.
Qed.

Lemma set_cell_get_cell_round_trip_witness :
  (tool_of (ex_set_kvs "abc") = JStr "set_cell" /\
   py_getitem (params_of (ex_set_kvs "abc")) "cell" = Ok (JStr "Sheet1!B2") /\
   py_getitem (params_of (ex_set_kvs "abc")) "value" = Ok (JStr "abc") /\
   (fst (run_tool 0 (ReqJson (JObj (ex_set_kvs "abc"))))).(status) = 200 /\
   loads (JStr (response_file (fst (run_tool 0 (ReqJson (JObj (ex_set_kvs "abc"))))))) = true) /\
  ex_get_after_set "abc" = result_response [("value", JStr "abc")].
Proof.
  assert (H1 : tool_of (ex_set_kvs "abc") = JStr "set_cell") by reflexivity.
  assert (H2 : py_getitem (params_of (ex_set_kvs "abc")) "cell" = Ok (JStr "Sheet1!B2")) by reflexivity.
  assert (H3 : py_getitem (params_of (ex_set_kvs "abc")) "value" = Ok (JStr "abc")) by reflexivity.
  assert (H4 : (fst (run_tool 0 (ReqJson (JObj (ex_set_kvs "abc"))))).(status) = 200)
    by (vm_compute; reflexivity).
  assert (H5 : loads (JStr (response_file (fst (run_tool 0 (ReqJson (JObj (ex_set_kvs "abc"))))))) = true)
    by (vm_compute; reflexivity).
  pose proof (set_cell_get_cell_round_trip 0 0 _ _ _ H1 H2 H3 H4 H5) as T. cbv zeta in T.
  split; [exact (conj H1 (conj H2 (conj H3 (conj H4 H5))))|].
  unfold ex_get_after_set. apply (proj2 T).
  - vm_compute. reflexivity.
  - apply Nat.leb_le. vm_compute. reflexivity.
  - vm_compute. reflexivity.
  - discriminate.
Defined.

(** C3 fails for numbers and for the empty string: ["0.30000000000000004"]
    parses as a float that [get_cell] reads back as [0.3], another float,
    and [""] reads back as null. *)
Lemma set_cell_round_trip_cex :
  py_float_of_str "0.30000000000000004" = Some (fl "0.30000000000000004") /\
  ex_get_after_set "0.30000000000000004" = result_response [("value", JFloat (fl "0.3"))] /\
  fl "0.3" <> fl "0.30000000000000004" /\
  ex_get_after_set "" = result_response [("value", JNull)].
Proof.
  split; [vm_compute; reflexivity|]. split; [vm_compute; reflexivity|].
  split; [vm_compute; congruence | vm_compute; reflexivity].
Qed.

Lemma set_cell_float_value_witness :
  (tool_of (ex_set_kvs "2.5") = JStr "set_cell" /\
   py_getitem (params_of (ex_set_kvs "2.5")) "cell" = Ok (JStr "Sheet1!B2") /\
   py_getitem (params_of (ex_set_kvs "2.5")) "value" = Ok (JStr "2.5") /\
   py_float_of_str "2.5" = Some (fl "2.5") /\
   (fst (run_tool 0 (ReqJson (JObj (ex_set_kvs "2.5"))))).(status) = 200 /\
   loads (JStr (response_file (fst (run_tool 0 (ReqJson (JObj (ex_set_kvs "2.5"))))))) = true) /\
  ex_get_after_set "2.5" = result_response [("value", JFloat (fl "2.5"))].
Proof.
  assert (H1 : tool_of (ex_set_kvs "2.5") = JStr "set_cell") by reflexivity.
  assert (H2 : py_getitem (params_of (ex_set_kvs "2.5")) "cell" = Ok (JStr "Sheet1!B2")) by reflexivity.
  assert (H3 : py_getitem (params_of (ex_set_kvs "2.5")) "value" = Ok (JStr "2.5")) by reflexivity.
  assert (H4 : py_float_of_str "2.5" = Some (fl "2.5")) by (vm_compute; reflexivity).
  assert (H5 : (fst (run_tool 0 (ReqJson (JObj (ex_set_kvs "2.5"))))).(status) = 200)
    by (vm_compute; reflexivity).
  assert (H6 : loads (JStr (response_file (fst (run_tool 0 (ReqJson (JObj (ex_set_kvs "2.5"))))))) = true)
    by (vm_compute; reflexivity).
  pose proof (set_cell_float_value 0 0 _ _ _ _ H1 H2 H3 H4 H5 H6) as T.
  split; [exact (conj H1 (conj H2 (conj H3 (conj H4 (conj H5 H6)))))|].
  unfold ex_get_after_set. rewrite (proj2 (proj2 T)). vm_compute. reflexivity.
Defined.

(** C9 fails for its example: after [set_cell] with ["5"], [get_cell]
    answers the int [5], not the float [5.0]. *)
Lemma set_cell_int_text_cex :
  ex_get_after_set "5" = result_response [("value", JInt 5)] /\
  ex_get_after_set "5" <> result_response [("value", JFloat (fl "5"))].
Proof.
  assert (E : ex_get_after_set "5" = result_response [("value", JInt 5)]) by (vm_compute; reflexivity).
  split; [exact E|]. rewrite E. discriminate.
Qed.


(* ================================================================== *)
(** ** Further properties of the handler and of the openpyxl calls it makes *)

Lemma split_first_inv sep l a b :
  split_first sep l = Some (a, b) -> l = a ++ sep :: b /\ existsb (Ascii.eqb sep) a = false.
Proof.
  revert a b. induction l as [|c l IH]; simpl; intros a b H; [discriminate|].
  destruct (Ascii.eqb c sep) eqn:E.
  - injection H as <- <-. apply Ascii.eqb_eq in E. subst. split; reflexivity.
  - destruct (split_first sep l) as [[a' b']|] eqn:E2; [|discriminate].
    injection H as <- <-. destruct (IH _ _ eq_refl) as [-> H2]. split; [reflexivity|].
    simpl. rewrite Ascii.eqb_sym, E. exact H2.
Qed.

Lemma split_first_none sep l : existsb (Ascii.eqb sep) l = false -> split_first sep l = None.
Proof.
  induction l as [|c l IH]; simpl; [reflexivity|]. intros H. apply orb_false_iff in H as [H1 H2].
  rewrite Ascii.eqb_sym, H1, IH by exact H2. reflexivity.
Qed.

Lemma string_of_list_ascii_app a b :
  string_of_list_ascii (a ++ b) = (string_of_list_ascii a ++ string_of_list_ascii b)%string.
Proof. induction a as [|c a IH]; simpl; [reflexivity|]. rewrite IH. reflexivity. Qed.

(** X1: [parse_range_string] succeeds only on a str, and only by
    splitting it at its first ['!']: when it answers [(a, b)], its argument
    is the string [a ++ "!" ++ b] and [a] holds no ['!'].  A list or a dict
    never gets through, even when it holds ["!"]. *)
Theorem parse_range_string_inverse j a b :
  parse_range_string j = Ok (a, b) ->
  j = JStr (a ++ "!" ++ b) /\ existsb (Ascii.eqb "!") (ascii_list a) = false.
Proof.
  unfold parse_range_string.
  destruct j as [| |? |? |s|l|kvs]; simpl; try discriminate;
    try (destruct (existsb _ _); simpl; discriminate);
    try (destruct (obj_get _ _); simpl; discriminate).
  destruct (existsb _ _); simpl; [|discriminate].
  destruct (split_first "!" (ascii_list s)) as [[la lb]|] eqn:E; [|discriminate].
  intros H; injection H as <- <-. apply split_first_inv in E as [E H].
  unfold ascii_list in *. rewrite list_ascii_of_string_of_list_ascii. split; [|exact H].
  f_equal. rewrite <- (string_of_list_ascii_of_string s), E, string_of_list_ascii_app. reflexivity.
Qed.

Lemma parse_range_string_inverse_witness :
  parse_range_string (JStr "Sheet1!A1:B2") = Ok ("Sheet1"%string, "A1:B2"%string) /\
  JStr "Sheet1!A1:B2" = JStr ("Sheet1" ++ "!" ++ "A1:B2") /\
  existsb (Ascii.eqb "!") (ascii_list "Sheet1") = false.
Proof.
  assert (H : parse_range_string (JStr "Sheet1!A1:B2") = Ok ("Sheet1"%string, "A1:B2"%string))
    by (vm_compute; reflexivity).
  exact (conj H (parse_range_string_inverse _ _ _ H)).
Defined.

(** X2: [load_workbook_from_b64] only looks at the text after the first
    comma: two texts that differ only in the header before their first
    comma load the same way (same events, same workbook or error).  A text
    without a comma fails with "Invalid base64 file format: not enough
    values to unpack (expected 2, got 1)". *)
Theorem load_workbook_data_url h1 h2 e s :
  existsb (Ascii.eqb ",") (ascii_list h1) = false ->
  existsb (Ascii.eqb ",") (ascii_list h2) = false ->
  existsb (Ascii.eqb ",") (ascii_list s) = false ->
  load_workbook_from_b64 (JStr (h1 ++ "," ++ e)) = load_workbook_from_b64 (JStr (h2 ++ "," ++ e)) /\
  load_workbook_from_b64 (JStr s) =
    ([EvDecode], Err (ValueError "Invalid base64 file format: not enough values to unpack (expected 2, got 1)")).
Proof.
  intros H1 H2 Hs. unfold load_workbook_from_b64. cbn [mbind emit lift].
  rewrite (split_first_none _ _ Hs). split; [|reflexivity].
  rewrite !ascii_list_app. change (ascii_list ",") with [","%char]. cbn [app].
  rewrite !split_first_app by assumption. reflexivity.
Qed.

Lemma load_workbook_data_url_witness :
  (existsb (Ascii.eqb ",") (ascii_list "data:application/vnd.ms-excel;base64") = false /\
   existsb (Ascii.eqb ",") (ascii_list "") = false /\
   existsb (Ascii.eqb ",") (ascii_list "UEsDBBQ") = false) /\
  load_workbook_from_b64 (JStr ("data:application/vnd.ms-excel;base64" ++ "," ++ "UEsDBBQ")) =
  load_workbook_from_b64 (JStr ("" ++ "," ++ "UEsDBBQ")) /\
  load_workbook_from_b64 (JStr "UEsDBBQ") =
  ([EvDecode], Err (ValueError "Invalid base64 file format: not enough values to unpack (expected 2, got 1)")).
Proof.
  assert (H1 : existsb (Ascii.eqb ",") (ascii_list "data:application/vnd.ms-excel;base64") = false)
    by reflexivity.
  assert (H2 : existsb (Ascii.eqb ",") (ascii_list "") = false) by reflexivity.
  assert (H3 : existsb (Ascii.eqb ",") (ascii_list "UEsDBBQ") = false) by reflexivity.
  exact (conj (conj H1 (conj H2 H3)) (load_workbook_data_url _ _ _ _ H1 H2 H3)).
Defined.

(** X3: a JSON body that is not an object (a list, a string, a number,
    a bool or [null]) gets status 500 with "'<type>' object has no
    attribute 'get'", before any parameter is read. *)
Theorem run_tool_body_not_object now j :
  (forall kvs, j <> JObj kvs) ->
  run_tool now (ReqJson j) = (error_response 500 ("'" ++ type_name j ++ "' object has no attribute 'get'"), []).
Proof.
  intros H. destruct j; try reflexivity. exfalso. exact (H kvs eq_refl).
Qed.

Lemma run_tool_body_not_object_witness :
  (forall kvs, JArr [] <> JObj kvs) /\
  run_tool 0 (ReqJson (JArr [])) = (error_response 500 "'list' object has no attribute 'get'", []).
Proof.
  assert (H : forall kvs, JArr [] <> JObj kvs) by (intros kvs; discriminate).
  exact (conj H (run_tool_body_not_object 0 _ H)).
Defined.

















Lemma ws_getitem_selcell sh addr sh1 rc c0 :
  ws_getitem sh addr = Ok (sh1, SelCell rc c0) ->
  exists c r xc xr, range_boundaries addr = Ok (Some c, Some r, xc, xr) /\ has_colon addr = false /\
    rc = (r, c) /\ get_cell_at sh r c = Ok (sh1, c0).
Proof.
  intros H. unfold ws_getitem in H.
  destruct (range_boundaries addr) as [[[[mc mr] xc] xr]|e] eqn:B; simpl in H; [|discriminate].
  destruct (negb _) eqn:T; [discriminate|].
  destruct mr as [r|].
  2: { destruct (iter_cols _ _ _ _ _) as [[sh1' cols]|e]; simpl in H; [|discriminate].
       repeat (match type of H with context [match ?x with _ => _ end] => destruct x end);
       discriminate. }
  destruct mc as [c|].
  2: { destruct (iter_rows _ _ _ _ _) as [[sh1' rows]|e]; simpl in H; [|discriminate].
       repeat (match type of H with context [match ?x with _ => _ end] => destruct x end);
       discriminate. }
  destruct (has_colon addr) eqn:C; simpl in H.
  { destruct (iter_rows _ _ _ _ _) as [[sh1' rows]|e]; simpl in H; discriminate. }
  destruct (get_cell_at sh r c) as [[sh2 x]|e] eqn:G; simpl in H; [|discriminate].
  injection H as <- <- <-. exists c, r, xc, xr. auto.
Qed.

Lemma get_cell_at_ok sh r c sh1 c0 :
  get_cell_at sh r c = Ok (sh1, c0) ->
  1 <= r <= 1048576 /\ title sh1 = title sh /\
  c0 = match lookup_cell (r, c) sh.(cells) with Some x => x | None => new_cell end /\
  forall k, k <> (r, c) -> lookup_cell k sh1.(cells) = lookup_cell k sh.(cells).
Proof.
  unfold get_cell_at. destruct ((0 <? r) && (r <? 1048577)) eqn:Bd; [|discriminate].
  apply andb_true_iff in Bd as [B1 B2]. apply Z.ltb_lt in B1, B2.
  destruct (lookup_cell (r, c) (cells sh)) as [x|] eqn:L; intros H; injection H as <- <-.
  - repeat split; auto; lia.
  - repeat split; try lia. intros k Hk. cbn [cells]. rewrite lookup_put.
    destruct (key_eqb k (r, c)) eqn:E; [apply key_eqb_eq in E; contradiction | reflexivity].
Qed.

(** X9: [sheet[cell_address] = new_value] succeeds only for a one-cell
    address whose row is in 1..1048576.  It then changes exactly one cell:
    the one at that row and column becomes the old cell (an empty one if
    there was none) with the new value bound; every other cell and the
    title of the sheet stay as they were. *)
Theorem ws_setitem_one_cell sh addr v sh' :
  ws_setitem sh addr v = Ok sh' ->
  exists c r xc xr c',
    range_boundaries addr = Ok (Some c, Some r, xc, xr) /\ has_colon addr = false /\
    1 <= r <= 1048576 /\ title sh' = title sh /\
    bind_value v (match lookup_cell (r, c) sh.(cells) with Some x => x | None => new_cell end) = Ok c' /\
    lookup_cell (r, c) sh'.(cells) = Some c' /\
    (forall k, k <> (r, c) -> lookup_cell k sh'.(cells) = lookup_cell k sh.(cells)).
Proof.
  unfold ws_setitem. intros H.
  destruct (ws_getitem sh addr) as [[sh1 sel]|e] eqn:G; simpl in H; [|discriminate].
  destruct sel as [rc c0| |]; try discriminate.
  destruct (bind_value v c0) as [c'|e] eqn:Bv; simpl in H; [|discriminate].
  injection H as <-.
  destruct (ws_getitem_selcell _ _ _ _ _ G) as (c & r & xc & xr & Hb & Hc & -> & Gc).
  destruct (get_cell_at_ok _ _ _ _ _ Gc) as (Hr & Ht & -> & Hk).
  exists c, r, xc, xr, c'. cbn [title cells].
  split; [exact Hb|]. split; [exact Hc|]. split; [exact Hr|]. split; [exact Ht|].
  split; [exact Bv|]. split.
  - rewrite lookup_put, key_eqb_refl. reflexivity.
  - intros k Hne. rewrite lookup_put.
    destruct (key_eqb k (r, c)) eqn:E; [apply key_eqb_eq in E; contradiction|]. auto.
Qed.

Lemma ws_setitem_one_cell_witness :
  let sh' := ok_or ex_small_sheet (ws_setitem ex_small_sheet "B2" (NStr "x")) in
  ws_setitem ex_small_sheet "B2" (NStr "x") = Ok sh' /\
  exists c r xc xr c',
    range_boundaries "B2" = Ok (Some c, Some r, xc, xr) /\ has_colon "B2" = false /\
    1 <= r <= 1048576 /\ title sh' = title ex_small_sheet /\
    bind_value (NStr "x") (match lookup_cell (r, c) ex_small_sheet.(cells) with Some x => x | None => new_cell end) = Ok c' /\
    lookup_cell (r, c) sh'.(cells) = Some c' /\
    (forall k, k <> (r, c) -> lookup_cell k sh'.(cells) = lookup_cell k ex_small_sheet.(cells)).
Proof.
  intros sh'.
  assert (H : ws_setitem ex_small_sheet "B2" (NStr "x") = Ok sh') by (vm_compute; reflexivity).
  exact (conj H (ws_setitem_one_cell _ _ _ _ H)).
Defined.





















(** X12: [base64.b64encode], used for the CSV text of [to_csv], turns [n]
    bytes into [4 * ceil(n / 3)] characters. *)
Theorem b64encode_length l : length (b64encode l) = (4 * ((length l + 2) / 3))%nat.
Proof.
  revert l. fix IH 1. intros [|a [|b [|c r]]]; try reflexivity.
  cbn [b64encode length app]. rewrite (IH r).
  replace (S (S (S (length r))) + 2)%nat with (length r + 2 + 1 * 3)%nat by lia.
  rewrite Nat.div_add by lia. lia.
Qed.

Lemma write_cell_big_int k cl z e :
  cl.(cvalue) = VInt z -> int_to_float z = Err e -> exists e', write_cell (k, cl) = Err e'.
Proof.
  intros Hv Hz. unfold write_cell. rewrite Hv. cbn [is_empty_value].
  destruct (ctype cl); cbn; eauto. all: rewrite Hz; eauto.
Qed.

Lemma map_r_In_ok {X Y} (f : X -> result Y) l l' x :
  map_r f l = Ok l' -> In x l -> exists y, f x = Ok y.
Proof.
  intros H Hin. apply map_r_Forall2 in H. revert Hin. induction H; simpl; [contradiction|].
  intros [<-|Hin]; eauto.
Qed.

Lemma replace_sheet_In name sh' l s :
  In s l -> title s <> name -> In s (replace_sheet name sh' l).
Proof.
  intros Hin Ht. induction l as [|s0 l IH]; simpl in *; [contradiction|].
  destruct (String.eqb (title s0) name) eqn:E.
  - apply String.eqb_eq in E. destruct Hin as [<-|Hin]; [contradiction|]. right; exact Hin.
  - destruct Hin as [<-|Hin]; [left; reflexivity|]. right; auto.
Qed.

(** X16: [set_cell] never returns a file for a workbook in which a
    sheet other than the one written holds an int too large for a float:
    saving that cell raises, so the status is not 200. *)
Theorem set_cell_big_int_elsewhere now kvs c name addr f wb s k cl z e :
  tool_of kvs = JStr "set_cell" ->
  py_getitem (params_of kvs) "file" = Ok f ->
  snd (load_workbook_from_b64 f) = Ok wb ->
  py_getitem (params_of kvs) "cell" = Ok c ->
  parse_range_string c = Ok (name, addr) ->
  In s wb.(sheets) -> title s <> name ->
  In (k, cl) s.(cells) -> cl.(cvalue) = VInt z -> int_to_float z = Err e ->
  (fst (run_tool now (ReqJson (JObj kvs)))).(status) <> 200.
Proof.
  intros Ht Hf Hl Hc Hp Hs Hts Hk Hv Hz H200.
  pose proof (status_200_set now kvs Ht H200) as Hok.
  destruct (set_cell_ok _ _ _ Hok)
    as (f0 & wb0 & c0 & name0 & addr0 & nv & sh & v & sh' & x & Hf0 & Hl0 & Hc0 & Hp0 & _ & _ & _ & _ & Hsave & _).
  rewrite Hf in Hf0. injection Hf0 as <-. rewrite Hl in Hl0. injection Hl0 as <-.
  rewrite Hc in Hc0. injection Hc0 as <-. rewrite Hp in Hp0. injection Hp0 as <- <-.
  unfold save_workbook in Hsave.
  destruct (map_r save_sheet _) as [xss|e0] eqn:Ms; [|discriminate].
  destruct (map_r_In_ok _ _ _ s Ms) as [xs Hxs].
  { apply replace_sheet_In; assumption. }
  unfold save_sheet in Hxs. destruct (map_r write_cell (cells s)) as [xcs|e1] eqn:Mw; [|discriminate].
  destruct (map_r_In_ok _ _ _ _ Mw Hk) as [xc Hxc].
  destruct (write_cell_big_int k cl z e Hv Hz) as [e' He']. congruence.
Qed.

Lemma set_cell_big_int_elsewhere_witness :
  let kvs := ex_kvs "set_cell" [("file", JStr ex_big_url); ("cell", JStr "Sheet2!A1"); ("value", JStr "1")] in
  let s := ok_or (mkSheet "" [] 0) (wb_getitem (ex_big_workbook) "Sheet1") in
  let cl := match lookup_cell (1, 2) s.(cells) with Some x => x | None => new_cell end in
  (tool_of kvs = JStr "set_cell" /\
   py_getitem (params_of kvs) "file" = Ok (JStr ex_big_url) /\
   snd (load_workbook_from_b64 (JStr ex_big_url)) = Ok (ex_big_workbook) /\
   py_getitem (params_of kvs) "cell" = Ok (JStr "Sheet2!A1") /\
   parse_range_string (JStr "Sheet2!A1") = Ok ("Sheet2"%string, "A1"%string) /\
   In s (ex_big_workbook).(sheets) /\ title s <> "Sheet2"%string /\
   In ((1, 2), cl) s.(cells) /\ cl.(cvalue) = VInt (10 ^ 309) /\
   int_to_float (10 ^ 309) = Err (OverflowError "int too large to convert to float")) /\
  (fst (run_tool 0 (ReqJson (JObj kvs)))).(status) <> 200.
Proof.
  intros kvs s cl.
  assert (H1 : tool_of kvs = JStr "set_cell") by reflexivity.
  assert (H2 : py_getitem (params_of kvs) "file" = Ok (JStr ex_big_url)) by reflexivity.
  assert (H3 : snd (load_workbook_from_b64 (JStr ex_big_url)) = Ok (ex_big_workbook))
    by (vm_compute; reflexivity).
  assert (H4 : py_getitem (params_of kvs) "cell" = Ok (JStr "Sheet2!A1")) by reflexivity.
  assert (H5 : parse_range_string (JStr "Sheet2!A1") = Ok ("Sheet2"%string, "A1"%string))
    by (vm_compute; reflexivity).
  assert (H6 : In s (ex_big_workbook).(sheets)) by (vm_compute; left; reflexivity).
  assert (H7 : title s <> "Sheet2"%string) by (vm_compute; discriminate).
  assert (H8 : In ((1, 2), cl) s.(cells)) by (vm_compute; left; reflexivity).
  assert (H9 : cl.(cvalue) = VInt (10 ^ 309)) by (vm_compute; reflexivity).
  assert (H10 : int_to_float (10 ^ 309) = Err (OverflowError "int too large to convert to float"))
    by (vm_compute; reflexivity).
  exact (conj (conj H1 (conj H2 (conj H3 (conj H4 (conj H5 (conj H6 (conj H7 (conj H8 (conj H9 H10)))))))))
              (set_cell_big_int_elsewhere 0 _ _ _ _ _ _ _ _ _ _ _ H1 H2 H3 H4 H5 H6 H7 H8 H9 H10)).
Defined.
